(** * BTPI-REACT portal: changelog store and container fleet monitor

    A shallow embedding of [portal/app.py]: the [ChangelogManager] class
    (an append-only event log persisted as one JSON document) and the
    [ContainerMonitor] class (a poll loop that probes the container
    runtime, diffs the result against the stored view and records the
    differences, plus the manual start/stop/restart commands).

    Python objects are mutable and shared; the two singletons
    [changelog_manager] and [container_monitor] are therefore modelled as
    one [State] record threaded through a small state monad.  What the
    program reads from its surroundings (the wall clock, whether the
    changelog file can be written, what a [docker] invocation produced) is
    either a field of that state or an explicit argument. *)

From stdpp Require Import base list strings gmap fin_maps.
From Stdlib Require Import ZArith Ascii.

(** ** Python strings

    [str] values are modelled by [string]; a character stands for a code
    point below 256. *)
Module PyStr.

(** [str.isspace] restricted to code points below 256. *)
Definition is_space (c : ascii) : bool :=
  let n := nat_of_ascii c in
  (((9 <=? n) && (n <=? 13)) || ((28 <=? n) && (n <=? 32))
   || (n =? 133) || (n =? 160))%nat.

Fixpoint lstrip (s : string) : string :=
  match s with
  | String c s' => if is_space c then lstrip s' else s
  | EmptyString => EmptyString
  end.

Definition rstrip (s : string) : string :=
  String.rev (lstrip (String.rev s)).

(** [s.strip()] *)
Definition strip (s : string) : string := rstrip (lstrip s).

(** [s.split(sep)] for a one-character separator: never empty. *)
Fixpoint split (sep : ascii) (s : string) : list string :=
  match s with
  | EmptyString => [EmptyString]
  | String c s' =>
      if decide (c = sep) then EmptyString :: split sep s'
      else match split sep s' with
           | h :: t => String c h :: t
           | [] => [String c EmptyString]
           end
  end.

Fixpoint startswith (p s : string) : bool :=
  match p, s with
  | EmptyString, _ => true
  | String a p', String b s' => bool_decide (a = b) && startswith p' s'
  | String _ _, EmptyString => false
  end.

(** [sub in s] *)
Fixpoint contains (sub s : string) : bool :=
  startswith sub s ||
  match s with
  | EmptyString => false
  | String _ s' => contains sub s'
  end.

(** Truth value of a string used as a condition. *)
Definition truthy (s : string) : bool :=
  match s with EmptyString => false | _ => true end.

Definition tab : ascii := ascii_of_nat 9.
Definition newline : ascii := ascii_of_nat 10.

(** What "substring" means, independently of the search above. *)
Definition is_substring (sub s : string) : Prop :=
  ∃ pre post, s = pre +:+ sub +:+ post.

End PyStr.

(** ** Python dictionaries with string keys

    A [dict] iterates in insertion order and assigning to a key that is
    present keeps the key's position, so a dictionary is an association
    list in insertion order with pairwise distinct keys. *)
Module PyDict.

Abbreviation dict V := (list (string * V)).

Section Ops.
Context {V : Type}.

(** [d.get(k)] *)
Fixpoint get (k : string) (d : dict V) : option V :=
  match d with
  | [] => None
  | (k', v) :: d' => if decide (k = k') then Some v else get k d'
  end.

(** [k in d] *)
Definition mem (k : string) (d : dict V) : bool :=
  match get k d with Some _ => true | None => false end.

(** [d[k] = v] *)
Fixpoint set (k : string) (v : V) (d : dict V) : dict V :=
  match d with
  | [] => [(k, v)]
  | (k', v') :: d' =>
      if decide (k = k') then (k, v) :: d' else (k', v') :: set k v d'
  end.

(** iteration over [d] yields its keys *)
Definition keys (d : dict V) : list string := d.*1.

(** the keys of a dictionary are pairwise distinct *)
Definition wf (d : dict V) : Prop := NoDup (keys d).
End Ops.

(** [{k: f(v) for k, v in d.items()}] *)
Definition map_values {V W : Type} (f : V → W) (d : dict V) : dict W :=
  (λ kv, (kv.1, f kv.2)) <$> d.

End PyDict.

(** ** Data model *)

(** One changelog entry, the dictionary built in [add_entry]. *)
Record Entry := mkEntry {
  timestamp : string;
  action : string;
  details : string;
  user : string;
  level : string;
  id : nat
}.

Record Metadata := mkMetadata {
  created : string;
  version : string;
  total_entries : nat
}.

(** The changelog document, [self.changelog]. *)
Record Changelog := mkChangelog {
  entries : list Entry;
  metadata : Metadata
}.

(** One value of the dictionary built by [get_all_container_status]. *)
Record ContainerInfo := mkContainerInfo {
  name : string;
  status : string;
  status_text : string;
  color : string;
  ports : string;
  image : string;
  size : string;
  last_updated : string
}.

(** What the changelog file holds when it is opened. *)
Inductive FileState :=
  | Missing
  | Unreadable
  | Stored (doc : Changelog).

(** What [subprocess.run(..., capture_output=True, text=True, timeout=t)]
    does: it returns a completed process, or raises ([TimeoutExpired] when
    the time limit passes, [OSError] when the program cannot be started);
    [exc] is the text [str(e)] of the exception. *)
Inductive RunOutcome :=
  | Completed (returncode : Z) (stdout stderr : string)
  | Raised (exc : string).

(** The return value of the control commands. *)
Record ControlResult := mkControlResult {
  success : bool;
  message : string
}.

(** The dictionary built by [get_stats]. *)
Record Stats := mkStats {
  stats_total_entries : nat;
  by_level : gmap string nat;
  by_action : gmap string nat;
  recent_activity : nat
}.

(** The state of the process and of the part of its surroundings it
    depends on.  [wall_clock k] is the instant (microseconds) that the
    [k]-th call of [datetime.now()] returns and [ticks] counts the calls
    made so far. *)
Record State := mkState {
  wall_clock : nat → Z;
  ticks : nat;
  file : FileState;
  writable : bool;
  changelog : Changelog;
  container_status : PyDict.dict ContainerInfo;
  previous_status : PyDict.dict string;
  monitoring : bool
}.

Definition set_ticks (n : nat) (s : State) : State :=
  mkState (wall_clock s) n (file s) (writable s) (changelog s)
          (container_status s) (previous_status s) (monitoring s).

Definition set_file (f : FileState) (s : State) : State :=
  mkState (wall_clock s) (ticks s) f (writable s) (changelog s)
          (container_status s) (previous_status s) (monitoring s).

Definition set_changelog (c : Changelog) (s : State) : State :=
  mkState (wall_clock s) (ticks s) (file s) (writable s) c
          (container_status s) (previous_status s) (monitoring s).

Definition set_container_status (d : PyDict.dict ContainerInfo) (s : State)
  : State :=
  mkState (wall_clock s) (ticks s) (file s) (writable s) (changelog s)
          d (previous_status s) (monitoring s).

Definition set_previous_status (d : PyDict.dict string) (s : State) : State :=
  mkState (wall_clock s) (ticks s) (file s) (writable s) (changelog s)
          (container_status s) d (monitoring s).

(** ** The state monad *)

Definition M (A : Type) : Type := State → A * State.

Definition ret {A} (a : A) : M A := λ s, (a, s).

Definition bind {A B} (m : M A) (k : A → M B) : M B :=
  λ s, let (a, s') := m s in k a s'.

Definition gets {A} (f : State → A) : M A := λ s, (f s, s).

Definition modify (f : State → State) : M unit := λ s, (tt, f s).

Notation "x <- c1 ;; c2" := (bind c1 (λ x, c2))
  (at level 100, c1 at next level, right associativity).
Notation "c1 ;;; c2" := (bind c1 (λ _, c2))
  (at level 100, right associativity).

(** Result and final state of running a computation. *)
Definition result {A} (m : M A) (s : State) : A := (m s).1.
Definition exec {A} (m : M A) (s : State) : State := (m s).2.

(** [for x in l: body(x)] *)
Fixpoint for_each {A} (l : list A) (body : A → M unit) : M unit :=
  match l with
  | [] => ret tt
  | x :: l' => body x ;;; for_each l' body
  end.

(** A loop that threads an accumulator (a local variable). *)
Fixpoint fold_each {A B} (l : list A) (body : B → A → M B) (acc : B) : M B :=
  match l with
  | [] => ret acc
  | x :: l' => acc' <- body acc x ;; fold_each l' body acc'
  end.

(** [[f(x) for x in l]] *)
Fixpoint map_each {A B} (l : list A) (f : A → M B) : M (list B) :=
  match l with
  | [] => ret []
  | x :: l' => y <- f x ;; ys <- map_each l' f ;; ret (y :: ys)
  end.

(** ** Python values used as conditions and list slices *)

(** Truth value of an optional string ([None] and [""] are false). *)
Definition truthy_str (o : option string) : bool :=
  match o with Some s => PyStr.truthy s | None => false end.

(** Truth value of an optional integer ([None] and [0] are false). *)
Definition truthy_int (o : option Z) : bool :=
  match o with Some n => negb (n =? 0)%Z | None => false end.

(** [l[start:]]: a negative [start] counts from the end and both kinds are
    clamped to the bounds of the list. *)
Definition slice_from {A} (start : Z) (l : list A) : list A :=
  let len := Z.of_nat (length l) in
  let first := if (start <? 0)%Z then Z.max (start + len) 0
               else Z.min start len in
  drop (Z.to_nat first) l.

(** ** The program *)

Section Portal.

(** [datetime.isoformat] and [datetime.fromisoformat] of the standard
    library, on instants counted in microseconds; [fromisoformat]
    answers [None] where the library raises and also for a text with a
    time zone, from which a naive [datetime.now()] cannot be
    subtracted. *)
Variable isoformat : Z → string.
Variable fromisoformat : string → option Z.

(** The texts that the library parses to a datetime with a time zone:
    for these the subtraction from [datetime.now()] raises, after the
    clock was read. *)
Variable has_tzinfo : string → bool.

(** [datetime.now()] *)
Definition datetime_now : M Z :=
  λ s, (wall_clock s (ticks s), set_ticks (S (ticks s)) s).

(** *** ChangelogManager *)

Definition default_user : string := "system".
Definition default_level : string := "info".

(** The document of a store that starts empty. *)
Definition empty_changelog (now : Z) : Changelog :=
  {| entries := [];
     metadata := {| created := isoformat now;
                    version := "1.0.0";
                    total_entries := 0 |} |}.

(** [save_changelog]: writes the whole document; a failure is logged
    and otherwise ignored. *)
Definition save_changelog : M unit :=
  λ s, if writable s then (tt, set_file (Stored (changelog s)) s)
       else (tt, s).

(** [load_changelog] *)
Definition load_changelog : M unit :=
  f <- gets file ;;
  match f with
  | Stored doc => modify (set_changelog doc)
  | Missing =>
      now <- datetime_now ;;
      modify (set_changelog (empty_changelog now)) ;;;
      save_changelog
  | Unreadable =>
      now <- datetime_now ;;
      modify (set_changelog (empty_changelog now))
  end.

(** [add_entry(action, details, user, level)] *)
Definition add_entry (action details user level : string) : M Entry :=
  now <- datetime_now ;;
  cl <- gets changelog ;;
  let entry := {| timestamp := isoformat now;
                  action := action;
                  details := details;
                  user := user;
                  level := level;
                  id := length (entries cl) + 1 |} in
  let appended := entries cl ++ [entry] in
  modify (set_changelog
            {| entries := appended;
               metadata := {| created := created (metadata cl);
                              version := version (metadata cl);
                              total_entries := length appended |} |}) ;;;
  save_changelog ;;;
  ret entry.

(** [get_entries(limit, level)] *)
Definition get_entries (limit : option Z) (lvl : option string)
  : M (list Entry) :=
  cl <- gets changelog ;;
  let entries0 := entries cl in
  let entries1 :=
    if truthy_str lvl
    then filter (λ e, Some (level e) = lvl) entries0
    else entries0 in
  let entries2 :=
    if truthy_int limit
    then slice_from (- default 0%Z limit) entries1
    else entries1 in
  ret entries2.

(** [_is_recent(timestamp, hours)] *)
Definition _is_recent (ts : string) (hours : Z) : M bool :=
  match fromisoformat ts with
  | Some entry_time =>
      now <- datetime_now ;;
      ret (bool_decide (now - entry_time < hours * 3600 * 1000000)%Z)
  | None =>
      if has_tzinfo ts then datetime_now ;;; ret false
      else ret false
  end.

(** [d[k] = d.get(k, 0) + 1] *)
Definition count_up (k : string) (d : gmap string nat) : gmap string nat :=
  <[k := default 0 (d !! k) + 1]> d.

(** The body of the loop of [get_stats]: one entry is counted under its
    level and under its action. *)
Definition count_entry (stats : Stats) (e : Entry) : Stats :=
  {| stats_total_entries := stats_total_entries stats;
     by_level := count_up (level e) (by_level stats);
     by_action := count_up (action e) (by_action stats);
     recent_activity := recent_activity stats |}.

(** [get_stats()] *)
Definition get_stats : M Stats :=
  cl <- gets changelog ;;
  let es := entries cl in
  flags <- map_each es (λ e, _is_recent (timestamp e) 24) ;;
  let stats0 := {| stats_total_entries := length es;
                   by_level := ∅;
                   by_action := ∅;
                   recent_activity := length (filter (λ b, b = true) flags) |} in
  fold_each es (λ stats e, ret (count_entry stats e)) stats0.

(** *** ContainerMonitor *)

(** The status type and colour chosen from the status text. *)
Definition status_type_of (status : string) : string * string :=
  if PyStr.contains "Up" status then ("running", "success")
  else if PyStr.contains "Exited" status then ("stopped", "danger")
  else if PyStr.contains "Created" status then ("created", "warning")
  else ("unknown", "secondary").

(** The body of the loop over the lines in [get_all_container_status];
    [containers] is the dictionary being filled. *)
Definition parse_line (containers : PyDict.dict ContainerInfo)
    (line : string) : M (PyDict.dict ContainerInfo) :=
  if PyStr.truthy (PyStr.strip line) then
    let parts := PyStr.split PyStr.tab line in
    if bool_decide (5 ≤ length parts) then
      let name := PyStr.strip (nth 0 parts "") in
      let status := PyStr.strip (nth 1 parts "") in
      let ports := PyStr.strip (nth 2 parts "") in
      let image := PyStr.strip (nth 3 parts "") in
      let size := PyStr.strip (nth 4 parts "") in
      let '(status_type, status_color) := status_type_of status in
      now <- datetime_now ;;
      ret (PyDict.set name
             {| name := name;
                status := status_type;
                status_text := status;
                color := status_color;
                ports := ports;
                image := image;
                size := size;
                last_updated := isoformat now |}
             containers)
    else ret containers
  else ret containers.

(** [get_all_container_status()], given what running the list command
    [docker ps -a --format ...] did. *)
Definition get_all_container_status (probe : RunOutcome)
  : M (PyDict.dict ContainerInfo) :=
  match probe with
  | Completed returncode stdout _ =>
      if (returncode =? 0)%Z then
        let lines := PyStr.split PyStr.newline (PyStr.strip stdout) in
        fold_each lines parse_line []
      else ret []
  | Raised _ => ret []
  end.

(** [_check_status_changes(current_status)] *)
Definition _check_status_changes
    (current_status : PyDict.dict ContainerInfo) : M unit :=
  let current_containers := PyDict.map_values status current_status in
  for_each current_status
    (λ '(name, status_info),
       previous <- gets previous_status ;;
       match PyDict.get name previous with
       | None =>
           add_entry "container_started"
             ("Container '" +:+ name +:+ "' started with status: "
              +:+ status status_info)
             default_user "info" ;;;
           ret tt
       | Some old =>
           if bool_decide (old ≠ status status_info) then
             add_entry "container_status_changed"
               ("Container '" +:+ name +:+ "' status changed from '"
                +:+ old +:+ "' to '" +:+ status status_info +:+ "'")
               default_user "warning" ;;;
             ret tt
           else ret tt
       end) ;;;
  previous <- gets previous_status ;;
  for_each (PyDict.keys previous)
    (λ name,
       if negb (PyDict.mem name current_containers) then
         add_entry "container_stopped"
           ("Container '" +:+ name +:+ "' stopped")
           default_user "warning" ;;;
         ret tt
       else ret tt).

(** One pass through the body of the [while] loop of [_monitor_loop];
    the pause between two passes is not part of the state. *)
Definition monitor_cycle (probe : RunOutcome) : M unit :=
  current_status <- get_all_container_status probe ;;
  _check_status_changes current_status ;;;
  modify (set_container_status current_status) ;;;
  modify (set_previous_status (PyDict.map_values status current_status)).

(** [_monitor_loop()], for as many passes as there are probe outcomes. *)
Fixpoint _monitor_loop (probes : list RunOutcome) : M unit :=
  match probes with
  | [] => ret tt
  | probe :: rest =>
      running <- gets monitoring ;;
      if running then monitor_cycle probe ;;; _monitor_loop rest
      else ret tt
  end.

(** [start_container(container_name)], given what running
    [docker start container_name] did. *)
Definition start_container (container_name : string) (run : RunOutcome)
  : M ControlResult :=
  match run with
  | Completed returncode _ stderr =>
      if (returncode =? 0)%Z then
        add_entry "container_started"
          ("Container '" +:+ container_name +:+ "' started manually")
          default_user "info" ;;;
        ret {| success := true;
               message := "Container " +:+ container_name
                          +:+ " started successfully" |}
      else
        ret {| success := false;
               message := "Failed to start container: " +:+ stderr |}
  | Raised e =>
      ret {| success := false;
             message := "Error starting container: " +:+ e |}
  end.

(** [stop_container(container_name)] *)
Definition stop_container (container_name : string) (run : RunOutcome)
  : M ControlResult :=
  match run with
  | Completed returncode _ stderr =>
      if (returncode =? 0)%Z then
        add_entry "container_stopped"
          ("Container '" +:+ container_name +:+ "' stopped manually")
          default_user "info" ;;;
        ret {| success := true;
               message := "Container " +:+ container_name
                          +:+ " stopped successfully" |}
      else
        ret {| success := false;
               message := "Failed to stop container: " +:+ stderr |}
  | Raised e =>
      ret {| success := false;
             message := "Error stopping container: " +:+ e |}
  end.

(** [restart_container(container_name)] *)
Definition restart_container (container_name : string) (run : RunOutcome)
  : M ControlResult :=
  match run with
  | Completed returncode _ stderr =>
      if (returncode =? 0)%Z then
        add_entry "container_restarted"
          ("Container '" +:+ container_name +:+ "' restarted manually")
          default_user "info" ;;;
        ret {| success := true;
               message := "Container " +:+ container_name
                          +:+ " restarted successfully" |}
      else
        ret {| success := false;
               message := "Failed to restart container: " +:+ stderr |}
  | Raised e =>
      ret {| success := false;
             message := "Error restarting container: " +:+ e |}
  end.

End Portal.

(** *** The probes behind the status routes *)

(** One value of the table [BTPI_TOOLS] of [config/tools.py], as far as
    the monitor reads it: [tool_info["name"]],
    [tool_info.get("description", "")] and
    [tool_info.get("container_names", [])]. *)
Record ToolInfo := mkToolInfo {
  tool_name : string;
  tool_description : option string;
  tool_container_names : option (list string)
}.

(** One value of the dictionary built by [get_tool_container_status]:
    the record of a container of the view, or the dictionary made up for
    a tool none of whose containers is in the view. *)
Inductive ToolEntry :=
  | ToolContainer (info : ContainerInfo)
  | ToolMissing (name status status_text color description : string).

(** [t.get("status")] *)
Definition tool_entry_status (t : ToolEntry) : string :=
  match t with
  | ToolContainer info => status info
  | ToolMissing _ st _ _ _ => st
  end.

(** [get_container_count()], given what running
    [docker ps --format 'table {{.Names}}'] did. *)
Definition get_container_count (run : RunOutcome) : M nat :=
  match run with
  | Completed returncode stdout _ =>
      if (returncode =? 0)%Z then
        let lines := PyStr.split PyStr.newline (PyStr.strip stdout) in
        ret (if bool_decide (1 < length lines) then length lines - 1 else 0)
      else ret 0
  | Raised _ => ret 0
  end.

(** The inner loop of [get_tool_container_status]: the record of the
    first of the names that is in the view. *)
Fixpoint find_container (container_names : list string)
    (all_containers : PyDict.dict ContainerInfo) : option ContainerInfo :=
  match container_names with
  | [] => None
  | container_name :: rest =>
      match PyDict.get container_name all_containers with
      | Some info => Some info
      | None => find_container rest all_containers
      end
  end.

Section Tools.
Variable isoformat : Z → string.

(** The table [BTPI_TOOLS]. *)
Variable BTPI_TOOLS : PyDict.dict ToolInfo.

(** The body of the outer loop of [get_tool_container_status]. *)
Definition tool_status_step (all_containers : PyDict.dict ContainerInfo)
    (tool_containers : PyDict.dict ToolEntry)
    (tool : string * ToolInfo) : PyDict.dict ToolEntry :=
  let '(tool_id, tool_info) := tool in
  match find_container (default [] (tool_container_names tool_info))
          all_containers with
  | Some info => PyDict.set tool_id (ToolContainer info) tool_containers
  | None =>
      PyDict.set tool_id
        (ToolMissing (tool_name tool_info) "not_found"
           "Container not running" "secondary"
           (default "" (tool_description tool_info)))
        tool_containers
  end.

(** [get_tool_container_status()], given what the list command did. *)
Definition get_tool_container_status (probe : RunOutcome)
  : M (PyDict.dict ToolEntry) :=
  all_containers <- get_all_container_status isoformat probe ;;
  ret (foldl (tool_status_step all_containers) [] BTPI_TOOLS).

End Tools.


(** ** Vocabulary of the properties *)

(** The arguments of one call of [add_entry]. *)
Record AppendCall := mkAppendCall {
  call_action : string;
  call_details : string;
  call_user : string;
  call_level : string
}.

(** The call that produced an entry. *)
Definition call_of (e : Entry) : AppendCall :=
  {| call_action := action e;
     call_details := details e;
     call_user := user e;
     call_level := level e |}.

(** The state transitions that the monitor records. *)
Inductive ChangeEvent :=
  | Started (name status : string)
  | StatusChanged (name old new : string)
  | Stopped (name : string).

(** Severity of an event. *)
Definition severity (ev : ChangeEvent) : string :=
  match ev with
  | Started _ _ => "info"
  | StatusChanged _ _ _ => "warning"
  | Stopped _ => "warning"
  end.

(** The changelog call by which the monitor records an event. *)
Definition event_call (ev : ChangeEvent) : AppendCall :=
  match ev with
  | Started name status =>
      mkAppendCall "container_started"
        ("Container '" +:+ name +:+ "' started with status: " +:+ status)
        "system" (severity ev)
  | StatusChanged name old new =>
      mkAppendCall "container_status_changed"
        ("Container '" +:+ name +:+ "' status changed from '"
         +:+ old +:+ "' to '" +:+ new +:+ "'")
        "system" (severity ev)
  | Stopped name =>
      mkAppendCall "container_stopped"
        ("Container '" +:+ name +:+ "' stopped")
        "system" (severity ev)
  end.

(** The difference of two fleet views as the specification words it, with
    both views whole: the names that appeared, then the names whose status
    differs, then the names that disappeared.  A status change carries the
    old and the new status text, the raw column of the listing. *)
Definition diff_spec_text (previous current : PyDict.dict ContainerInfo)
  : list ChangeEvent :=
  ((λ item, Started item.1 (status item.2))
     <$> filter (λ item, PyDict.get item.1 previous = None) current)
  ++ omap (λ item,
             match PyDict.get item.1 previous with
             | Some old =>
                 if decide (status old = status item.2) then None
                 else Some (StatusChanged item.1 (status_text old)
                              (status_text item.2))
             | None => None
             end) current
  ++ (Stopped
        <$> filter (λ name, PyDict.get name current = None)
              (PyDict.keys previous)).

(** The same difference as the code can make it: of the previous view the
    monitor keeps the status of each name and nothing else, so that a
    status change carries the old and the new status (running, stopped,
    created or unknown), the value that the diff compares. *)
Definition diff_spec (previous : PyDict.dict string)
    (current : PyDict.dict ContainerInfo) : list ChangeEvent :=
  ((λ item, Started item.1 (status item.2))
     <$> filter (λ item, PyDict.get item.1 previous = None) current)
  ++ omap (λ item,
             match PyDict.get item.1 previous with
             | Some old =>
                 if decide (old = status item.2) then None
                 else Some (StatusChanged item.1 old (status item.2))
             | None => None
             end) current
  ++ (Stopped
        <$> filter (λ name, PyDict.get name current = None)
              (PyDict.keys previous)).

(** The events in the order in which [_check_status_changes] meets
    them. *)
Definition appeared (previous : PyDict.dict string)
    (item : string * ContainerInfo) : option ChangeEvent :=
  match PyDict.get item.1 previous with
  | None => Some (Started item.1 (status item.2))
  | Some old =>
      if bool_decide (old ≠ status item.2)
      then Some (StatusChanged item.1 old (status item.2))
      else None
  end.

Definition disappeared (current : PyDict.dict ContainerInfo)
    (name : string) : option ChangeEvent :=
  if negb (PyDict.mem name (PyDict.map_values status current))
  then Some (Stopped name) else None.

Definition events_in_order (previous : PyDict.dict string)
    (current : PyDict.dict ContainerInfo) : list ChangeEvent :=
  omap (appeared previous) current
  ++ omap (disappeared current) (PyDict.keys previous).

(** [read] in the words of the specification: filter by level when one is
    given, then keep at most the last [limit] entries when a limit is
    given. *)
Definition read_spec (limit : option Z) (lvl : option string)
    (es : list Entry) : list Entry :=
  let filtered :=
    match lvl with
    | Some wanted => filter (λ e, level e = wanted) es
    | None => es
    end in
  match limit with
  | Some n => drop (length filtered - Z.to_nat n) filtered
  | None => filtered
  end.

(** Sum of the counters of a histogram. *)
Definition sum_counts (m : gmap string nat) : nat :=
  map_fold (λ _ n acc, n + acc) 0 m.

(** Classification of a status text in the words of the specification. *)
Inductive classified (text : string) : string → Prop :=
  | classified_running :
      PyStr.is_substring "Up" text → classified text "running"
  | classified_stopped :
      ¬ PyStr.is_substring "Up" text →
      PyStr.is_substring "Exited" text → classified text "stopped"
  | classified_created :
      ¬ PyStr.is_substring "Up" text →
      ¬ PyStr.is_substring "Exited" text →
      PyStr.is_substring "Created" text → classified text "created"
  | classified_unknown :
      ¬ PyStr.is_substring "Up" text →
      ¬ PyStr.is_substring "Exited" text →
      ¬ PyStr.is_substring "Created" text → classified text "unknown".

(** A record of the view: filed under its own name and classified from its
    own status text. *)
Definition well_parsed (item : string * ContainerInfo) : Prop :=
  name item.2 = item.1 ∧ classified (status_text item.2) (status item.2).

(** Number of tab-separated columns of a line. *)
Definition columns (line : string) : nat :=
  length (PyStr.split PyStr.tab line).

(** An invocation of the runtime failed: it exited with a code other than
    zero, or it raised (time limit, program not found). *)
Definition run_failed (run : RunOutcome) : Prop :=
  match run with
  | Completed returncode _ _ => returncode ≠ 0%Z
  | Raised _ => True
  end.

(** The error text captured from a failed invocation. *)
Definition error_text (run : RunOutcome) : string :=
  match run with
  | Completed _ _ stderr => stderr
  | Raised exc => exc
  end.

Section Drivers.
Variable isoformat : Z → string.

(** One call of [add_entry]. *)
Definition append (c : AppendCall) : M Entry :=
  add_entry isoformat (call_action c) (call_details c) (call_user c)
    (call_level c).

(** A sequence of calls of [add_entry]. *)
Definition append_all (calls : list AppendCall) : M (list Entry) :=
  map_each calls append.

(** Recording a list of events, one call each. *)
Definition record_all (evs : list ChangeEvent) : M unit :=
  for_each evs (λ ev, append (event_call ev) ;;; ret tt).

(** The diff sentence as the specification words it, for a process whose
    stored view is [previous]: the entries that one pass appends are those
    of [diff_spec_text], each once. *)
Definition diff_carries_texts (previous current : PyDict.dict ContainerInfo)
    (s : State) : Prop :=
  ∃ new,
    entries (changelog (exec (_check_status_changes isoformat current) s))
    = entries (changelog s) ++ new
    ∧ call_of <$> new ≡ₚ event_call <$> diff_spec_text previous current.

(** The failed-probe sentence as the specification words it: the cycle is
    the identity on the stored view and on the entry sequence. *)
Definition failed_probe_keeps (probe : RunOutcome) (s : State) : Prop :=
  let s' := exec (monitor_cycle isoformat probe) s in
  container_status s' = container_status s
  ∧ entries (changelog s') = entries (changelog s).

(** A command reports success and appends exactly one entry, made by the
    call [c]. *)
Definition succeeds_appending (command : M ControlResult)
    (c : AppendCall) (s : State) : Prop :=
  success (result command s) = true
  ∧ ∃ e, entries (changelog (exec command s)) = entries (changelog s) ++ [e]
         ∧ call_of e = c.

(** A command reports failure with a message that ends in the error text
    and leaves the state as it was. *)
Definition fails_with (command : M ControlResult)
    (text : string) (s : State) : Prop :=
  ∃ prefix,
    command s = ({| success := false; message := prefix +:+ text |}, s).

(** The manual-command sentence as the specification words it: one entry
    is appended, with the given action and the actor "manual". *)
Definition appends_manual_entry (command : M ControlResult)
    (tag : string) (s : State) : Prop :=
  ∃ e, entries (changelog (exec command s)) = entries (changelog s) ++ [e]
       ∧ action e = tag ∧ user e = "manual".

End Drivers.

(** ** Runs of the program *)

(** Two states hold the same store: the same document in memory, the same
    file and the same permission to write it. *)
Definition same_store (s s' : State) : Prop :=
  changelog s' = changelog s ∧ file s' = file s ∧ writable s' = writable s.

(** The ids of a document count up from 1. *)
Definition ids_sequential (cl : Changelog) : Prop :=
  id <$> entries cl = seq 1 (length (entries cl)).

(** The file holds the document that is in memory. *)
Definition in_sync (s : State) : Prop := file s = Stored (changelog s).

(** Number of entries of a level, and of an action. *)
Definition count_level (lvl : string) (es : list Entry) : nat :=
  length (filter (λ e, level e = lvl) es).

Definition count_action (act : string) (es : list Entry) : nat :=
  length (filter (λ e, action e = act) es).

(** What a histogram reports for a key that occurs [n] times. *)
Definition reported (n : nat) : option nat :=
  if decide (n = 0) then None else Some n.

(** Number of occurrences of a character in a text. *)
Fixpoint occurrences (c : ascii) (s : string) : nat :=
  match s with
  | EmptyString => 0
  | String c' s' => (if decide (c' = c) then 1 else 0) + occurrences c s'
  end.

(** The status types and the colour that goes with each. *)
Definition status_colours : list (string * string) :=
  [("running", "success"); ("stopped", "danger");
   ("created", "warning"); ("unknown", "secondary")].

Section Runs.
Variable isoformat : Z → string.
Variable fromisoformat : string → option Z.
Variable has_tzinfo : string → bool.
Variable BTPI_TOOLS : PyDict.dict ToolInfo.

(** The store changes only by calls of [add_entry]: from [s] the program
    reaches [s'] by some calls of [add_entry], between which it changes
    at most what is not the store. *)
Inductive append_trace : State → State → Prop :=
  | trace_done s s' :
      same_store s s' → append_trace s s'
  | trace_append s s0 c s' :
      same_store s s0 →
      append_trace (exec (append isoformat c) s0) s' →
      append_trace s s'.

(** The operations that the routes and the monitor thread carry out, each
    taken as a whole. *)
Inductive Operation :=
  | OpAppend (c : AppendCall)
  | OpRead (limit : option Z) (lvl : option string)
  | OpStats
  | OpCycle (probe : RunOutcome)
  | OpStatus (probe : RunOutcome)
  | OpCount (run : RunOutcome)
  | OpToolStatus (probe : RunOutcome)
  | OpStart (container_name : string) (run : RunOutcome)
  | OpStop (container_name : string) (run : RunOutcome)
  | OpRestart (container_name : string) (run : RunOutcome).

Definition run_operation (op : Operation) : M unit :=
  match op with
  | OpAppend c => append isoformat c ;;; ret tt
  | OpRead limit lvl => get_entries limit lvl ;;; ret tt
  | OpStats => get_stats fromisoformat has_tzinfo ;;; ret tt
  | OpCycle probe => monitor_cycle isoformat probe
  | OpStatus probe => get_all_container_status isoformat probe ;;; ret tt
  | OpCount run => get_container_count run ;;; ret tt
  | OpToolStatus probe =>
      get_tool_container_status isoformat BTPI_TOOLS probe ;;; ret tt
  | OpStart container_name run =>
      start_container isoformat container_name run ;;; ret tt
  | OpStop container_name run =>
      stop_container isoformat container_name run ;;; ret tt
  | OpRestart container_name run =>
      restart_container isoformat container_name run ;;; ret tt
  end.

(** A run: operations one after the other. *)
Definition run_operations (ops : list Operation) : M unit :=
  for_each ops run_operation.

End Runs.

(** An operation read the clock, some number of times, and did nothing
    else. *)
Definition clock_only (s s' : State) : Prop :=
  ∃ n, s' = set_ticks (ticks s + n) s.

(** The entry that [get_tool_container_status] files for a tool, given
    the view. *)
Definition tool_entry (all_containers : PyDict.dict ContainerInfo)
    (tool_info : ToolInfo) : ToolEntry :=
  match find_container (default [] (tool_container_names tool_info))
          all_containers with
  | Some info => ToolContainer info
  | None =>
      ToolMissing (tool_name tool_info) "not_found" "Container not running"
        "secondary" (default "" (tool_description tool_info))
  end.

(** A command, run in [s] on the outcome [run] of its [docker] call,
    reports success exactly when the call exited with code zero, appends
    one entry when it reports success and none otherwise, and leaves the
    stored views alone. *)
Definition logs_iff_success (command : RunOutcome → M ControlResult)
    (run : RunOutcome) (s : State) : Prop :=
  let r := result (command run) s in
  let s' := exec (command run) s in
  (success r = true ↔ ∃ out err, run = Completed 0 out err)
  ∧ length (entries (changelog s'))
    = length (entries (changelog s)) + (if success r then 1 else 0)
  ∧ container_status s' = container_status s
  ∧ previous_status s' = previous_status s.

(** A text neither starts nor ends with white space. *)
Definition starts_clean (s : string) : Prop :=
  match s with
  | String c _ => PyStr.is_space c = false
  | EmptyString => True
  end.

Definition trimmed (s : string) : Prop :=
  starts_clean s ∧ starts_clean (String.rev s).

(** ** Sample inputs *)

Module Sample.

Definition iso (t : Z) : string := "2024-01-01T00:00:00".
Definition parse (ts : string) : option Z := Some 0%Z.
Definition tzinfo (ts : string) : bool := false.

Definition info (n st : string) : ContainerInfo :=
  {| name := n; status := st; status_text := "Up 2 hours";
     color := "success"; ports := ""; image := "nginx"; size := "0B";
     last_updated := "2024-01-01T00:00:00" |}.

(** A freshly started process: empty store, empty views. *)
Definition fresh : State :=
  {| wall_clock := Z.of_nat; ticks := 0; file := Missing; writable := true;
     changelog := empty_changelog iso 0;
     container_status := []; previous_status := []; monitoring := true |}.

(** The process after it has seen one running container. *)
Definition watching : State :=
  {| wall_clock := Z.of_nat; ticks := 0; file := Missing; writable := true;
     changelog := empty_changelog iso 0;
     container_status := [("web", info "web" "running")];
     previous_status := [("web", "running")];
     monitoring := true |}.

(** The process with one entry in its store. *)
Definition logged : State :=
  exec (add_entry iso "portal_access" "Portal accessed" "anonymous" "info")
    fresh.

Definition fleet : PyDict.dict ContainerInfo :=
  [("web", info "web" "running"); ("db", info "db" "stopped")].

(** The container of [watching], now seen as exited. *)
Definition exited : PyDict.dict ContainerInfo :=
  [("web",
    {| name := "web"; status := "stopped";
       status_text := "Exited (0) 3 days ago";
       color := "danger"; ports := ""; image := "nginx"; size := "0B";
       last_updated := "2024-01-02T00:00:00" |})].

(** The process after a cycle that saw [fleet]. *)
Definition settled : State :=
  {| wall_clock := Z.of_nat; ticks := 0; file := Missing; writable := true;
     changelog := empty_changelog iso 0;
     container_status := fleet;
     previous_status := PyDict.map_values status fleet;
     monitoring := true |}.

(** The daemon cannot be reached. *)
Definition daemon_down : RunOutcome :=
  Completed 1 "" "Cannot connect to the Docker daemon".

(** The command went through. *)
Definition done_ok : RunOutcome := Completed 0 "web" "".

(** The command did not return within its time limit. *)
Definition timed_out : RunOutcome :=
  Raised "Command '['docker', 'start', 'web']' timed out after 30 seconds".

Definition calls : list AppendCall :=
  [mkAppendCall "system_startup" "started" "system" "info";
   mkAppendCall "api_call" "metrics" "system" "info"].

(** Two rows of the table of tools. *)
Definition tools : PyDict.dict ToolInfo :=
  [("velociraptor",
    mkToolInfo "Velociraptor" (Some "Digital Forensics and Incident Response")
      (Some ["velociraptor"; "btpi-velociraptor"]));
   ("portainer",
    mkToolInfo "Portainer" (Some "Web-based container management")
      (Some ["portainer"; "btpi-portainer"]))].

(** A listing of two containers. *)
Definition listing : RunOutcome :=
  Completed 0
    ("web" +:+ String PyStr.tab ("Up 2 hours" +:+ String PyStr.tab
       ("80/tcp" +:+ String PyStr.tab ("nginx" +:+ String PyStr.tab
          ("0B" +:+ String PyStr.newline
    ("db" +:+ String PyStr.tab ("Exited (0) 3 days ago" +:+ String PyStr.tab
       ("" +:+ String PyStr.tab ("postgres" +:+ String PyStr.tab
          ("0B" +:+ String PyStr.newline ""))))))))))
    "".

(** One line of a listing, for a name and a status text. *)
Definition row (n text : string) : string :=
  n +:+ String PyStr.tab (text +:+ String PyStr.tab
    ("80/tcp" +:+ String PyStr.tab ("nginx" +:+ String PyStr.tab "0B"))).


(** A listing in which the tool portainer runs under its second name. *)
Definition tool_listing : RunOutcome :=
  Completed 0 (row "btpi-portainer" "Up 2 hours") "".

(** A process whose file holds its (empty) document. *)
Definition synced : State :=
  {| wall_clock := Z.of_nat; ticks := 0;
     file := Stored (empty_changelog iso 0); writable := true;
     changelog := empty_changelog iso 0;
     container_status := []; previous_status := []; monitoring := true |}.

(** A process whose changelog file cannot be read. *)
Definition corrupt : State :=
  {| wall_clock := Z.of_nat; ticks := 0; file := Unreadable; writable := true;
     changelog := empty_changelog iso 0;
     container_status := []; previous_status := []; monitoring := true |}.

(** A run that mixes the monitor with the routes. *)
Definition session : list Operation :=
  [OpCycle listing; OpStart "db" done_ok; OpRead (Some 5%Z) None;
   OpCycle daemon_down; OpStats].

End Sample.

(** * Properties *)

(** ** Python strings *)

Lemma startswith_spec p s :
  PyStr.startswith p s = true ↔ ∃ r, s = p +:+ r.
Proof.
  revert s. induction p as [|a p IH]; intros s; simpl.
  - split; [intros _; by exists s | done].
  - destruct s as [|b s]; simpl.
    + split; [done | intros [r Hr]; discriminate].
    + rewrite andb_true_iff, bool_decide_eq_true, IH. split.
      * intros [-> [r ->]]. by exists r.
      * intros [r Hr]. injection Hr as -> ->. eauto.
Qed.

(** The search [sub in s] finds exactly the substrings. *)
Lemma contains_spec sub s :
  PyStr.contains sub s = true ↔ PyStr.is_substring sub s.
Proof.
  unfold PyStr.is_substring. induction s as [|c s IH].
  - simpl. rewrite orb_false_r, startswith_spec. split.
    + intros [r Hr]. by exists "", r.
    + intros [pre [post H]]. destruct pre; [by exists post | discriminate].
  - cbn [PyStr.contains]. rewrite orb_true_iff, startswith_spec, IH. split.
    + intros [[r Hr] | [pre [post H]]].
      * by exists "", r.
      * exists (String c pre), post. simpl. by rewrite H.
    + intros [pre [post H]]. destruct pre as [|c' pre].
      * left. by exists post.
      * right. injection H as -> ->. by exists pre, post.
Qed.

Lemma contains_false sub s :
  PyStr.contains sub s = false ↔ ¬ PyStr.is_substring sub s.
Proof.
  rewrite <- contains_spec. by destruct (PyStr.contains sub s).
Qed.

(** ** Python dictionaries *)

Module PyDictFacts.
Import PyDict.

Section Facts.
Context {V : Type}.
Implicit Types (d : dict V) (k : string) (v : V).

Lemma get_None k d : get k d = None ↔ k ∉ keys d.
Proof.
  unfold keys. induction d as [|[k' v'] d IH]; simpl.
  - split; [intros _; apply not_elem_of_nil | done].
  - rewrite not_elem_of_cons. destruct (decide (k = k')) as [->|Hne].
    + split; [done | by intros [? _]].
    + rewrite IH. split; [done | by intros [_ ?]].
Qed.

Lemma mem_keys k d : mem k d = true ↔ k ∈ keys d.
Proof.
  unfold mem. destruct (get k d) eqn:E.
  - split; [intros _ | done].
    destruct (decide (k ∈ keys d)) as [|H]; [done|].
    apply get_None in H. congruence.
  - split; [done|]. intros H. by apply get_None in E.
Qed.

Lemma get_wf_elem k v d : wf d → (k, v) ∈ d → get k d = Some v.
Proof.
  unfold wf, keys. induction d as [|[k' v'] d IH]; simpl.
  - by intros _ ?%elem_of_nil.
  - intros [Hk Hd]%NoDup_cons [Heq | Hin]%elem_of_cons.
    + injection Heq as -> ->. by rewrite decide_True.
    + rewrite decide_False; [by apply IH|].
      intros ->. apply Hk. apply list_elem_of_fmap. by exists (k', v).
Qed.

Lemma keys_set k v d :
  keys (set k v d) = if mem k d then keys d else keys d ++ [k].
Proof.
  unfold mem, keys. induction d as [|[k' v'] d IH]; csimpl; [done|].
  destruct (decide (k = k')) as [->|]; csimpl; [done|].
  rewrite IH. by destruct (get k d).
Qed.

(** Assignment keeps the keys distinct. *)
Lemma set_wf k v d : wf d → wf (set k v d).
Proof.
  unfold wf. rewrite keys_set. destruct (mem k d) eqn:E; [done|].
  intros Hd. apply NoDup_app. split_and!; [done | | apply NoDup_singleton].
  intros x Hx ->%list_elem_of_singleton.
  apply mem_keys in Hx. congruence.
Qed.

Lemma get_set k k' v d :
  get k' (set k v d) = if decide (k' = k) then Some v else get k' d.
Proof.
  induction d as [|[k0 v0] d IH]; simpl.
  - by destruct (decide (k' = k)).
  - destruct (decide (k = k0)) as [->|]; simpl.
    + by destruct (decide (k' = k0)).
    + rewrite IH. destruct (decide (k' = k0)) as [->|]; [|done].
      by rewrite decide_False.
Qed.

End Facts.

Lemma keys_map_values {V W} (f : V → W) (d : dict V) :
  keys (map_values f d) = keys d.
Proof. unfold keys, map_values. by rewrite <- list_fmap_compose. Qed.

Lemma get_map_values {V W} (f : V → W) k (d : dict V) :
  get k (map_values f d) = f <$> get k d.
Proof.
  induction d as [|[k' v'] d IH]; simpl; [done|].
  by destruct (decide (k = k')).
Qed.

Lemma mem_map_values {V W} (f : V → W) k (d : dict V) :
  mem k (map_values f d) = mem k d.
Proof. unfold mem. rewrite get_map_values. by destruct (get k d). Qed.

End PyDictFacts.

(** ** The state monad *)

Lemma bind_run {A B} (m : M A) (k : A → M B) s :
  bind m k s = k (result m s) (exec m s).
Proof. unfold bind, result, exec. by destruct (m s). Qed.

Lemma run_pair {A} (m : M A) s : m s = (result m s, exec m s).
Proof. unfold result, exec. by destruct (m s). Qed.

Lemma exec_bind {A B} (m : M A) (k : A → M B) s :
  exec (bind m k) s = exec (k (result m s)) (exec m s).
Proof. unfold exec at 1. by rewrite bind_run. Qed.

Lemma result_bind {A B} (m : M A) (k : A → M B) s :
  result (bind m k) s = result (k (result m s)) (exec m s).
Proof. unfold result at 1. by rewrite bind_run. Qed.

Lemma exec_then_ret {A B} (m : M A) (b : B) s :
  exec (m ;;; ret b) s = exec m s.
Proof. by rewrite exec_bind. Qed.

(** ** Appending to the changelog *)

Section Changelog.
Variable isoformat : Z → string.

Lemma add_entry_run a d u l s :
  add_entry isoformat a d u l s =
    let e := mkEntry (isoformat (wall_clock s (ticks s))) a d u l
                     (length (entries (changelog s)) + 1) in
    let cl := mkChangelog (entries (changelog s) ++ [e])
                (mkMetadata (created (metadata (changelog s)))
                            (version (metadata (changelog s)))
                            (length (entries (changelog s) ++ [e]))) in
    (e, mkState (wall_clock s) (S (ticks s))
                (if writable s then Stored cl else file s)
                (writable s) cl (container_status s) (previous_status s)
                (monitoring s)).
Proof.
  unfold add_entry, bind, gets, modify, ret, datetime_now, save_changelog.
  destruct s as [wc tk f w cl cs ps mo]; simpl. by destruct w.
Qed.

Lemma append_result c s :
  call_of (result (append isoformat c) s) = c
  ∧ id (result (append isoformat c) s) = S (length (entries (changelog s))).
Proof.
  unfold append, result. rewrite add_entry_run. simpl.
  split; [by destruct c | lia].
Qed.

Lemma append_entries c s :
  entries (changelog (exec (append isoformat c) s))
  = entries (changelog s) ++ [result (append isoformat c) s].
Proof. unfold append, result, exec. by rewrite add_entry_run. Qed.

Lemma append_frame c s :
  container_status (exec (append isoformat c) s) = container_status s
  ∧ previous_status (exec (append isoformat c) s) = previous_status s
  ∧ monitoring (exec (append isoformat c) s) = monitoring s.
Proof. unfold append, exec. by rewrite add_entry_run. Qed.

Lemma append_all_cons c calls s :
  append_all isoformat (c :: calls) s
  = (result (append isoformat c) s
       :: result (append_all isoformat calls) (exec (append isoformat c) s),
     exec (append_all isoformat calls) (exec (append isoformat c) s)).
Proof.
  unfold append_all. cbn [map_each]. by rewrite !bind_run.
Qed.

(** A sequence of appends extends the entry sequence by the entries it
    returns, numbered from the next free id. *)
Lemma append_all_entries calls s :
  entries (changelog (exec (append_all isoformat calls) s))
  = entries (changelog s) ++ result (append_all isoformat calls) s
  ∧ id <$> result (append_all isoformat calls) s
    = seq (S (length (entries (changelog s)))) (length calls)
  ∧ call_of <$> result (append_all isoformat calls) s = calls.
Proof.
  revert s. induction calls as [|c calls IH]; intros s.
  - simpl. by rewrite app_nil_r.
  - unfold exec, result. rewrite append_all_cons. cbn [fst snd].
    destruct (IH (exec (append isoformat c) s)) as (He & Hid & Hc).
    destruct (append_result c s) as [Hcall Hidc].
    rewrite append_entries in He, Hid.
    rewrite length_app in Hid. simpl in Hid.
    rewrite He. split_and!.
    + by rewrite <- app_assoc.
    + csimpl. rewrite Hidc. f_equal. rewrite Hid. f_equal. lia.
    + csimpl. by rewrite Hcall, Hc.
Qed.

End Changelog.

(** ** Reading the changelog *)

Lemma slice_from_last {A} (n : Z) (l : list A) :
  (0 < n)%Z → slice_from (- n) l = drop (length l - Z.to_nat n) l.
Proof.
  intros Hn. unfold slice_from.
  assert ((- n <? 0)%Z = true) as -> by (apply Z.ltb_lt; lia).
  f_equal. lia.
Qed.

Lemma get_entries_run limit lvl s :
  get_entries limit lvl s = (result (get_entries limit lvl) s, s).
Proof. done. Qed.

(** ** Statistics *)

Lemma sum_counts_insert k n (m : gmap string nat) :
  m !! k = None → sum_counts (<[k := n]> m) = n + sum_counts m.
Proof.
  intros Hk. unfold sum_counts.
  apply (map_fold_insert_L (λ _ n acc, n + acc)); [|done].
  intros; lia.
Qed.

(** Counting one more occurrence raises the sum of the counters by one. *)
Lemma sum_counts_count_up k (m : gmap string nat) :
  sum_counts (count_up k m) = S (sum_counts m).
Proof.
  unfold count_up. destruct (m !! k) as [n|] eqn:Hk; simpl.
  - rewrite <- (insert_delete_id m k n) at 2 by done.
    rewrite <- insert_delete_eq.
    rewrite !sum_counts_insert by apply lookup_delete_eq. lia.
  - by rewrite sum_counts_insert.
Qed.

Lemma fold_each_pure {A B} (f : B → A → B) (l : list A) (acc : B) s :
  fold_each l (λ b a, ret (f b a)) acc s = (foldl f acc l, s).
Proof.
  revert acc. induction l as [|a l IH]; intros acc; [done|].
  cbn [fold_each]. rewrite bind_run. apply IH.
Qed.

Lemma count_entries_totals (es : list Entry) (st : Stats) :
  stats_total_entries (foldl count_entry st es) = stats_total_entries st
  ∧ sum_counts (by_level (foldl count_entry st es))
    = sum_counts (by_level st) + length es
  ∧ sum_counts (by_action (foldl count_entry st es))
    = sum_counts (by_action st) + length es.
Proof.
  revert st. induction es as [|e es IH]; intros st; simpl; [lia|].
  destruct (IH (count_entry st e)) as (-> & -> & ->). simpl.
  rewrite !sum_counts_count_up. lia.
Qed.

Lemma get_stats_result fromisoformat has_tzinfo s :
  ∃ recent, result (get_stats fromisoformat has_tzinfo) s
  = foldl count_entry
      {| stats_total_entries := length (entries (changelog s));
         by_level := ∅; by_action := ∅; recent_activity := recent |}
      (entries (changelog s)).
Proof.
  unfold get_stats, result. rewrite !bind_run.
  eexists. unfold gets at 1 2. cbn [result fst].
  by rewrite (fold_each_pure count_entry).
Qed.

(** ** Claims about the changelog store *)

(** C4: appending any sequence of entries to an empty store numbers them
    1, 2, 3, ... in the order of the calls, each entry records the call
    that made it, and the entries present after a first part of the
    sequence are still there, unchanged and in place, after the rest. *)
Theorem changelog_ids_sequential isoformat
    (calls later : list AppendCall) (s : State) :
  entries (changelog s) = [] →
  let stored := entries (changelog (exec (append_all isoformat calls) s)) in
  id <$> stored = seq 1 (length calls)
  ∧ (∀ n e, stored !! n = Some e → id e = S n)
  ∧ call_of <$> stored = calls
  ∧ stored `prefix_of`
      entries (changelog (exec (append_all isoformat (calls ++ later)) s)).
Proof.
  intros Hempty stored.
  destruct (append_all_entries isoformat calls s) as (He & Hid & Hc).
  rewrite Hempty in He, Hid. simpl in He, Hid.
  assert (Hids : id <$> stored = seq 1 (length calls))
    by (unfold stored; by rewrite He).
  split_and!.
  - done.
  - intros n e Hn.
    assert ((id <$> stored) !! n = Some (id e)) as Hl
      by (by rewrite list_lookup_fmap, Hn).
    rewrite Hids in Hl. apply lookup_seq in Hl. lia.
  - unfold stored. by rewrite He.
  - unfold stored.
    destruct (append_all_entries isoformat (calls ++ later) s) as (He' & _).
    rewrite He', Hempty, He. simpl.
    clear. revert s. induction calls as [|c calls IH]; intros s.
    + apply prefix_nil.
    + simpl. unfold result. rewrite !append_all_cons. cbn [fst].
      apply prefix_cons, IH.
Qed.

Lemma changelog_ids_sequential_witness :
  entries (changelog Sample.fresh) = []
  ∧ id <$> entries (changelog
                     (exec (append_all Sample.iso Sample.calls) Sample.fresh))
    = [1; 2].
Proof.
  split; [reflexivity|].
  exact (proj1 (changelog_ids_sequential Sample.iso Sample.calls []
                  Sample.fresh eq_refl)).
Defined.

(** C7, as the code has it: for a limit that is absent or positive and a
    level that is absent or not the empty text, reading filters by level
    first and then keeps the last [limit] entries (all of them when there
    are fewer, or when no limit is given), in their original order, and
    leaves the state alone; right after an append, reading with limit 1
    returns exactly the entry just appended. *)
Theorem get_entries_spec isoformat
    (limit : option Z) (lvl : option string) (s : State) :
  (∀ n, limit = Some n → (0 < n)%Z) →
  lvl ≠ Some "" →
  get_entries limit lvl s
  = (read_spec limit lvl (entries (changelog s)), s)
  ∧ ∀ c, result (get_entries (Some 1%Z) None) (exec (append isoformat c) s)
         = [result (append isoformat c) s].
Proof.
  intros Hlimit Hlvl. split.
  - rewrite get_entries_run. f_equal.
    unfold get_entries, read_spec, result, bind, gets, ret. cbn [fst].
    assert ((if truthy_str lvl
             then filter (λ e, Some (level e) = lvl) (entries (changelog s))
             else entries (changelog s))
            = match lvl with
              | Some wanted =>
                  filter (λ e, level e = wanted) (entries (changelog s))
              | None => entries (changelog s)
              end) as ->.
    { destruct lvl as [[|a w]|]; [done | | done]. simpl.
      apply list_filter_iff. intros e. split; congruence. }
    destruct limit as [n|]; [|done].
    specialize (Hlimit n eq_refl). simpl.
    assert ((n =? 0)%Z = false) as -> by (apply Z.eqb_neq; lia). simpl.
    by apply slice_from_last.
  - intros c. unfold get_entries, result, bind, gets, ret. cbn [fst].
    simpl. rewrite (append_entries isoformat).
    rewrite slice_from_last by lia.
    rewrite length_app. simpl.
    replace (length (entries (changelog s)) + 1 - Z.to_nat 1)
      with (length (entries (changelog s))) by lia.
    by rewrite drop_app_length.
Qed.

Lemma get_entries_spec_witness :
  get_entries (Some 1%Z) (Some "info") Sample.logged
  = (read_spec (Some 1%Z) (Some "info")
       (entries (changelog Sample.logged)), Sample.logged).
Proof.
  refine (proj1 (get_entries_spec Sample.iso (Some 1%Z) (Some "info")
                   Sample.logged _ _)).
  - intros n [= <-]. reflexivity.
  - discriminate.
Defined.

(** The sentence of C7 as the specification words it fails for the limit
    0: the specification's reading keeps at most 0 entries, the code
    returns the whole sequence. *)
Lemma get_entries_limit_zero_differs :
  result (get_entries (Some 0%Z) None) Sample.logged
  ≠ read_spec (Some 0%Z) None (entries (changelog Sample.logged)).
Proof. vm_compute. discriminate. Qed.

(** C10: a limit of 0 is treated like no limit at all, whatever the level:
    the read with limit 0 is the read without a limit, and what it returns
    is not the empty sequence but the whole sequence of the entries of
    the level asked for, in stored order (all the entries when no level,
    or the empty text, is given), which is the full filtered sequence of
    the specification's reading without a limit; the state is left as it
    was. *)
Theorem get_entries_limit_zero (lvl : option string) (s : State) :
  get_entries (Some 0%Z) lvl s = get_entries None lvl s
  ∧ get_entries (Some 0%Z) lvl s
    = (match lvl with
       | Some (String a w) =>
           filter (λ e, level e = String a w) (entries (changelog s))
       | Some EmptyString | None => entries (changelog s)
       end, s)
  ∧ (lvl ≠ Some "" →
     result (get_entries (Some 0%Z) lvl) s
     = read_spec None lvl (entries (changelog s)))
  ∧ length (result (get_entries (Some 0%Z) None) s)
    = length (entries (changelog s)).
Proof.
  assert (Hrun : get_entries (Some 0%Z) lvl s
                 = (match lvl with
                    | Some (String a w) =>
                        filter (λ e, level e = String a w)
                          (entries (changelog s))
                    | Some EmptyString | None => entries (changelog s)
                    end, s)).
  { rewrite get_entries_run. f_equal.
    unfold get_entries, result, bind, gets, ret. cbn [fst].
    cbn [truthy_int Z.eqb negb].
    destruct lvl as [[|a w]|]; [done | | done].
    cbn [truthy_str PyStr.truthy].
    apply list_filter_iff. intros e. split; congruence. }
  split_and!.
  - unfold get_entries. cbn [truthy_int Z.eqb negb]. reflexivity.
  - exact Hrun.
  - intros Hlvl. unfold result. rewrite Hrun. cbn [fst].
    by destruct lvl as [[|a w]|].
  - reflexivity.
Qed.

(** C8: the total of the statistics is the number of entries that an
    unfiltered read returns, and the counters per level and the counters
    per action each add up to that total. *)
Theorem get_stats_totals fromisoformat has_tzinfo (s : State) :
  let stats := result (get_stats fromisoformat has_tzinfo) s in
  stats_total_entries stats = length (result (get_entries None None) s)
  ∧ sum_counts (by_level stats) = stats_total_entries stats
  ∧ sum_counts (by_action stats) = stats_total_entries stats.
Proof.
  intros stats. unfold stats.
  destruct (get_stats_result fromisoformat has_tzinfo s) as [recent ->].
  match goal with |- context [foldl count_entry ?st ?es] =>
    destruct (count_entries_totals es st) as (-> & -> & ->) end.
  simpl. unfold sum_counts. rewrite map_fold_empty. done.
Qed.

(** ** Recording events *)

Section Recording.
Variable isoformat : Z → string.

Lemma record_all_cons ev evs s :
  record_all isoformat (ev :: evs) s
  = record_all isoformat evs (exec (append isoformat (event_call ev)) s).
Proof.
  unfold record_all. cbn [for_each]. by rewrite bind_run, exec_then_ret.
Qed.

Lemma record_all_app evs1 evs2 s :
  record_all isoformat (evs1 ++ evs2) s
  = record_all isoformat evs2 (exec (record_all isoformat evs1) s).
Proof.
  revert s. induction evs1 as [|ev evs1 IH]; intros s; [done|].
  simpl. unfold exec at 1. by rewrite !record_all_cons, IH.
Qed.

(** Recording events appends one entry per event, in order, and touches
    neither view. *)
Lemma record_all_entries evs s :
  ∃ new,
    entries (changelog (exec (record_all isoformat evs) s))
    = entries (changelog s) ++ new
    ∧ call_of <$> new = event_call <$> evs.
Proof.
  revert s. induction evs as [|ev evs IH]; intros s.
  - exists []. by rewrite app_nil_r.
  - unfold exec. rewrite record_all_cons.
    destruct (IH (exec (append isoformat (event_call ev)) s))
      as (new & He & Hc).
    exists (result (append isoformat (event_call ev)) s :: new).
    unfold exec at 1 in He. rewrite He, append_entries, <- app_assoc.
    split; [done|]. csimpl.
    by rewrite Hc, (proj1 (append_result isoformat _ s)).
Qed.

Lemma record_all_frame evs s :
  container_status (exec (record_all isoformat evs) s) = container_status s
  ∧ previous_status (exec (record_all isoformat evs) s) = previous_status s
  ∧ monitoring (exec (record_all isoformat evs) s) = monitoring s.
Proof.
  revert s. induction evs as [|ev evs IH]; intros s; [done|].
  unfold exec. rewrite record_all_cons.
  destruct (IH (exec (append isoformat (event_call ev)) s)) as (H1 & H2 & H3).
  destruct (append_frame isoformat (event_call ev) s) as (F1 & F2 & F3).
  unfold exec at 1 in H1. unfold exec at 1 in H2. unfold exec at 1 in H3.
  rewrite H1, H2, H3. done.
Qed.

(** The first loop of [_check_status_changes]. *)
Lemma appeared_loop (current : PyDict.dict ContainerInfo) s :
  for_each current
    (λ '(name, status_info),
       previous <- gets previous_status ;;
       match PyDict.get name previous with
       | None =>
           add_entry isoformat "container_started"
             ("Container '" +:+ name +:+ "' started with status: "
              +:+ status status_info)
             default_user "info" ;;;
           ret tt
       | Some old =>
           if bool_decide (old ≠ status status_info) then
             add_entry isoformat "container_status_changed"
               ("Container '" +:+ name +:+ "' status changed from '"
                +:+ old +:+ "' to '" +:+ status status_info +:+ "'")
               default_user "warning" ;;;
             ret tt
           else ret tt
       end) s
  = record_all isoformat (omap (appeared (previous_status s)) current) s.
Proof.
  revert s. induction current as [|[name info] current IH]; intros s; [done|].
  cbn [for_each]. rewrite bind_run, exec_bind.
  unfold gets at 1 2. cbn [result exec fst snd].
  assert (Hhead : omap (appeared (previous_status s)) ((name, info) :: current)
          = match appeared (previous_status s) (name, info) with
            | Some ev => ev :: omap (appeared (previous_status s)) current
            | None => omap (appeared (previous_status s)) current
            end) by done.
  rewrite Hhead. unfold appeared at 1. cbn [fst snd].
  destruct (PyDict.get name (previous_status s)) as [old|] eqn:Hget.
  - destruct (bool_decide (old ≠ status info)) eqn:Hd; [|apply IH].
    rewrite record_all_cons, exec_then_ret, IH.
    destruct (append_frame isoformat
                (event_call (StatusChanged name old (status info))) s)
      as (_ & Hprev & _).
    by rewrite <- Hprev.
  - rewrite record_all_cons, exec_then_ret, IH.
    destruct (append_frame isoformat
                (event_call (Started name (status info))) s)
      as (_ & Hprev & _).
    by rewrite <- Hprev.
Qed.

(** The second loop of [_check_status_changes]. *)
Lemma disappeared_loop (current : PyDict.dict ContainerInfo)
    (names : list string) s :
  for_each names
    (λ name,
       if negb (PyDict.mem name (PyDict.map_values status current)) then
         add_entry isoformat "container_stopped"
           ("Container '" +:+ name +:+ "' stopped")
           default_user "warning" ;;;
         ret tt
       else ret tt) s
  = record_all isoformat (omap (disappeared current) names) s.
Proof.
  revert s. induction names as [|name names IH]; intros s; [done|].
  cbn [for_each]. rewrite bind_run.
  assert (Hhead : omap (disappeared current) (name :: names)
          = match disappeared current name with
            | Some ev => ev :: omap (disappeared current) names
            | None => omap (disappeared current) names
            end) by done.
  rewrite Hhead. unfold disappeared at 1.
  destruct (negb (PyDict.mem name (PyDict.map_values status current))).
  - by rewrite record_all_cons, exec_then_ret, IH.
  - apply IH.
Qed.

(** [_check_status_changes] records the events of [events_in_order], in
    that order, and does nothing else. *)
Lemma check_status_changes_run (current : PyDict.dict ContainerInfo) s :
  _check_status_changes isoformat current s
  = record_all isoformat (events_in_order (previous_status s) current) s.
Proof.
  unfold _check_status_changes, events_in_order.
  rewrite bind_run. unfold exec at 1. rewrite appeared_loop.
  rewrite bind_run. unfold gets at 1 2. cbn [result exec fst snd].
  rewrite disappeared_loop, record_all_app.
  fold (exec (record_all isoformat
                (omap (appeared (previous_status s)) current)) s).
  by rewrite (proj1 (proj2 (record_all_frame _ s))).
Qed.

End Recording.

(** ** The difference of two views *)

Lemma appeared_perm (previous : PyDict.dict string)
    (current : PyDict.dict ContainerInfo) :
  omap (appeared previous) current
  ≡ₚ ((λ item, Started item.1 (status item.2))
        <$> filter (λ item, PyDict.get item.1 previous = None) current)
     ++ omap (λ item,
                match PyDict.get item.1 previous with
                | Some old =>
                    if decide (old = status item.2) then None
                    else Some (StatusChanged item.1 old (status item.2))
                | None => None
                end) current.
Proof.
  induction current as [|item current IH]; [done|].
  rewrite filter_cons. csimpl. unfold appeared at 1.
  destruct (PyDict.get item.1 previous) as [old|] eqn:Hget.
  - destruct (decide (Some old = None)) as [?|_]; [done|].
    destruct (decide (old = status item.2)) as [Heq|Hne].
    + by rewrite bool_decide_eq_false_2 by (intros H; by apply H).
    + rewrite bool_decide_eq_true_2 by done.
      rewrite IH. apply Permutation_middle.
  - destruct (decide (None = None)) as [_|?]; [|done].
    csimpl. by rewrite IH.
Qed.

Lemma disappeared_filter (current : PyDict.dict ContainerInfo)
    (names : list string) :
  omap (disappeared current) names
  = Stopped <$> filter (λ name, PyDict.get name current = None) names.
Proof.
  induction names as [|name names IH]; [done|].
  rewrite filter_cons. csimpl. unfold disappeared at 1.
  rewrite PyDictFacts.mem_map_values. unfold PyDict.mem.
  destruct (PyDict.get name current) as [info|] eqn:Hget; simpl.
  - destruct (decide (Some info = None)) as [?|_]; done.
  - destruct (decide (@None ContainerInfo = None)) as [_|?]; [|done].
    csimpl. by rewrite IH.
Qed.

(** Against the empty view every stored name has disappeared. *)
Lemma disappeared_all (names : list string) :
  omap (disappeared []) names = Stopped <$> names.
Proof. induction names as [|name names IH]; csimpl; by f_equal. Qed.

(** The events in the order of the code are those of the specification,
    up to their order. *)
Lemma events_in_order_perm (previous : PyDict.dict string)
    (current : PyDict.dict ContainerInfo) :
  events_in_order previous current ≡ₚ diff_spec previous current.
Proof.
  unfold events_in_order, diff_spec.
  rewrite appeared_perm, disappeared_filter. by rewrite <- app_assoc.
Qed.

Lemma omap_all_None {A B} (f : A → option B) (l : list A) :
  (∀ x, x ∈ l → f x = None) → omap f l = [].
Proof.
  induction l as [|x l IH]; intros H; [done|]. csimpl.
  rewrite (H x) by (apply elem_of_cons; by left).
  apply IH. intros y Hy. apply H. apply elem_of_cons. by right.
Qed.

(** A view differs from itself by no event. *)
Lemma events_in_order_same (view : PyDict.dict ContainerInfo) :
  PyDict.wf view →
  events_in_order (PyDict.map_values status view) view = [].
Proof.
  intros Hwf. unfold events_in_order.
  rewrite !omap_all_None; [done | |].
  - intros name Hname. unfold disappeared.
    rewrite PyDictFacts.keys_map_values in Hname.
    rewrite PyDictFacts.mem_map_values.
    by apply PyDictFacts.mem_keys in Hname as ->.
  - intros [name info] Hin. unfold appeared. cbn [fst snd].
    rewrite PyDictFacts.get_map_values.
    rewrite (PyDictFacts.get_wf_elem name info view Hwf Hin). simpl.
    by rewrite bool_decide_eq_false_2 by (intros H; by apply H).
Qed.

(** ** Parsing the runtime's listing *)

(** The status type is chosen by the first of "Up", "Exited", "Created"
    that occurs in the status text. *)
Lemma status_type_of_classified (text : string) :
  classified text (status_type_of text).1.
Proof.
  unfold status_type_of.
  destruct (PyStr.contains "Up" text) eqn:Hup.
  { apply classified_running. by apply contains_spec. }
  destruct (PyStr.contains "Exited" text) eqn:Hex.
  { apply classified_stopped; [by apply contains_false | by apply contains_spec]. }
  destruct (PyStr.contains "Created" text) eqn:Hcr.
  { apply classified_created;
      [by apply contains_false | by apply contains_false | by apply contains_spec]. }
  apply classified_unknown; by apply contains_false.
Qed.

Section Parsing.
Variable isoformat : Z → string.

Lemma parse_line_skip line (containers : PyDict.dict ContainerInfo) s :
  columns line < 5 → parse_line isoformat containers line s = (containers, s).
Proof.
  unfold columns, parse_line. intros Hcols.
  destruct (PyStr.truthy (PyStr.strip line)); [|done].
  by rewrite bool_decide_eq_false_2 by lia.
Qed.

Lemma parse_line_row line (containers : PyDict.dict ContainerInfo) s :
  5 ≤ columns line → PyStr.strip line ≠ "" →
  let parts := PyStr.split PyStr.tab line in
  let text := PyStr.strip (nth 1 parts "") in
  parse_line isoformat containers line s
  = (PyDict.set (PyStr.strip (nth 0 parts ""))
       {| name := PyStr.strip (nth 0 parts "");
          status := (status_type_of text).1;
          status_text := text;
          color := (status_type_of text).2;
          ports := PyStr.strip (nth 2 parts "");
          image := PyStr.strip (nth 3 parts "");
          size := PyStr.strip (nth 4 parts "");
          last_updated := isoformat (wall_clock s (ticks s)) |}
       containers,
     set_ticks (S (ticks s)) s).
Proof.
  intros Hcols Hblank parts text. unfold columns in Hcols. unfold parse_line.
  destruct (PyStr.strip line) eqn:Hs; [done|]. cbn [PyStr.truthy].
  rewrite bool_decide_eq_true_2 by done.
  fold parts. fold text. by destruct (status_type_of text).
Qed.


Lemma set_Forall {V} (P : string * V → Prop) k v (d : PyDict.dict V) :
  P (k, v) → Forall P d → Forall P (PyDict.set k v d).
Proof.
  intros Hkv. induction 1 as [|[k' v'] d Hx Hd IH]; simpl.
  - by constructor.
  - destruct (decide (k = k')); constructor; done.
Qed.

Lemma parse_line_inv line (containers : PyDict.dict ContainerInfo) s :
  Forall well_parsed containers → PyDict.wf containers →
  Forall well_parsed (result (parse_line isoformat containers line) s)
  ∧ PyDict.wf (result (parse_line isoformat containers line) s).
Proof.
  intros Hall Hwf.
  destruct (decide (5 ≤ columns line)) as [Hw|Hn];
    [destruct (decide (PyStr.strip line = "")) as [Hb|Hb]|].
  - unfold result, parse_line. by rewrite Hb.
  - unfold result. rewrite parse_line_row by done. cbn [fst]. split.
    + apply set_Forall; [|done]. split; [done|]. cbn [snd status_text status].
      apply status_type_of_classified.
    + by apply PyDictFacts.set_wf.
  - unfold result. by rewrite parse_line_skip by lia.
Qed.

Lemma parse_lines_inv lines (containers : PyDict.dict ContainerInfo) s :
  Forall well_parsed containers → PyDict.wf containers →
  Forall well_parsed (result (fold_each lines (parse_line isoformat) containers) s)
  ∧ PyDict.wf (result (fold_each lines (parse_line isoformat) containers) s).
Proof.
  revert containers s. induction lines as [|line lines IH]; intros cs s Hall Hwf.
  - done.
  - cbn [fold_each]. rewrite result_bind.
    destruct (parse_line_inv line cs s Hall Hwf) as [Hall' Hwf'].
    by apply IH.
Qed.

(** A failed probe yields the empty view and touches nothing. *)
Lemma failed_probe_empty probe s :
  run_failed probe → get_all_container_status isoformat probe s = ([], s).
Proof.
  destruct probe as [rc out err|exc]; simpl; [|done].
  intros Hrc. by rewrite (proj2 (Z.eqb_neq rc 0) Hrc).
Qed.

(** What a probe yields has distinct keys, whatever the outcome. *)
Lemma probe_view_wf probe s :
  PyDict.wf (result (get_all_container_status isoformat probe) s).
Proof.
  destruct probe as [rc out err|exc]; [|apply NoDup_nil_2].
  unfold result. cbn [get_all_container_status].
  destruct (rc =? 0)%Z; [|apply NoDup_nil_2].
  apply parse_lines_inv; [constructor | apply NoDup_nil_2].
Qed.

(** After a cycle the stored statuses are those of the stored view: the
    next cycle diffs against what this one stored. *)
Lemma monitor_cycle_stores probe s :
  let s' := exec (monitor_cycle isoformat probe) s in
  container_status s' = result (get_all_container_status isoformat probe) s
  ∧ previous_status s' = PyDict.map_values status (container_status s')
  ∧ PyDict.wf (container_status s').
Proof.
  intros s'.
  assert (Hcs : container_status s'
                = result (get_all_container_status isoformat probe) s).
  { unfold s', monitor_cycle. by rewrite !exec_bind. }
  split_and!.
  - exact Hcs.
  - rewrite Hcs. unfold s', monitor_cycle. by rewrite !exec_bind.
  - rewrite Hcs. apply probe_view_wf.
Qed.

End Parsing.

(** A store whose file is absent or unreadable starts without entries. *)
Lemma load_changelog_fresh isoformat s :
  (∀ doc, file s ≠ Stored doc) →
  entries (changelog (exec (load_changelog isoformat) s)) = [].
Proof.
  intros Hfile. unfold load_changelog. rewrite exec_bind.
  unfold gets at 1 2. cbn [result exec fst snd].
  destruct (file s) as [| |doc] eqn:Hf; [| |by destruct (Hfile doc)].
  - by rewrite !exec_bind; unfold save_changelog, exec;
      destruct s as [wc tk f [] cl cs ps mo].
  - by rewrite !exec_bind.
Qed.

(** ** Claims about the monitor *)


(** The events of [diff_spec] depend on the names and the statuses of
    the current view only. *)
Lemma diff_spec_statuses (previous : PyDict.dict string)
    (current current' : PyDict.dict ContainerInfo) :
  PyDict.map_values status current' = PyDict.map_values status current →
  diff_spec previous current' = diff_spec previous current.
Proof.
  intros Hst. unfold diff_spec. f_equal; [|f_equal].
  - revert current' Hst. induction current as [|[k v] current IH];
      intros [|[k' v'] current'] Hst; try done.
    injection Hst as -> Hv Hst. rewrite !filter_cons. cbn [fst snd].
    destruct (decide (PyDict.get k previous = None)); csimpl;
      rewrite ?Hv; [f_equal|]; by apply IH.
  - revert current' Hst. induction current as [|[k v] current IH];
      intros [|[k' v'] current'] Hst; try done.
    injection Hst as -> Hv Hst. csimpl. rewrite Hv, (IH current' Hst). done.
  - f_equal. apply list_filter_iff. intros name.
    assert (status <$> PyDict.get name current'
            = status <$> PyDict.get name current) as Hget
      by (by rewrite <- !PyDictFacts.get_map_values, Hst).
    destruct (PyDict.get name current'), (PyDict.get name current);
      naive_solver.
Qed.

(** C5, as the code has it: one pass of the diff appends, for the stored
    previous view and a current view, exactly the entries of these events,
    each once and no others: started (info) for each name of the current
    view that the previous one lacks, status changed (warning) for each
    name of both whose status differs, stopped (warning) for each name of
    the previous view that the current one lacks.  A status change
    carries the old and the new status, the classified value running,
    stopped, created or unknown that the diff compares, and not the
    status text of the listing: two current views with the same names and
    statuses give the same events, whatever their status texts. *)
Theorem check_status_changes_diff isoformat
    (current : PyDict.dict ContainerInfo) (s : State) :
  (∃ new,
     entries (changelog (exec (_check_status_changes isoformat current) s))
     = entries (changelog s) ++ new
     ∧ call_of <$> new
       ≡ₚ event_call <$> diff_spec (previous_status s) current)
  ∧ ∀ current',
      PyDict.map_values status current' = PyDict.map_values status current →
      diff_spec (previous_status s) current'
      = diff_spec (previous_status s) current.
Proof.
  split; [|intros current'; apply diff_spec_statuses].
  unfold exec. rewrite check_status_changes_run.
  destruct (record_all_entries isoformat
              (events_in_order (previous_status s) current) s)
    as (new & He & Hc).
  exists new. split; [exact He|].
  rewrite Hc. apply fmap_Permutation, events_in_order_perm.
Qed.

(** The sentence of C5 as the specification words it fails: the monitor
    holds a container with the status text "Up 2 hours" and then sees it
    with the text "Exited (0) 3 days ago"; the entry it appends says that
    the status changed from 'running' to 'stopped' and holds neither
    text. *)
Lemma status_change_carries_status_not_text :
  previous_status Sample.watching
  = PyDict.map_values status (container_status Sample.watching)
  ∧ ¬ diff_carries_texts Sample.iso (container_status Sample.watching)
        Sample.exited Sample.watching
  ∧ Forall (λ e, ¬ PyStr.is_substring "Up 2 hours" (details e)
                 ∧ ¬ PyStr.is_substring "Exited (0) 3 days ago" (details e))
      (entries (changelog
                  (exec (_check_status_changes Sample.iso Sample.exited)
                     Sample.watching))).
Proof.
  split_and!.
  - reflexivity.
  - intros (new & He & Hp). vm_compute in He. subst new.
    vm_compute in Hp. apply Permutation_singleton_inj in Hp.
    discriminate Hp.
  - vm_compute entries. repeat constructor;
      apply contains_false; vm_compute; reflexivity.
Qed.

(** C6: diffing a view against itself appends nothing; the state is left
    as it was. *)
Theorem check_status_changes_same isoformat
    (view : PyDict.dict ContainerInfo) (s : State) :
  PyDict.wf view →
  previous_status s = PyDict.map_values status view →
  _check_status_changes isoformat view s = (tt, s).
Proof.
  intros Hwf Hprev.
  by rewrite check_status_changes_run, Hprev, events_in_order_same.
Qed.

Lemma check_status_changes_same_witness :
  _check_status_changes Sample.iso Sample.fleet Sample.settled
  = (tt, Sample.settled).
Proof.
  apply check_status_changes_same.
  - unfold PyDict.wf, PyDict.keys. simpl.
    apply NoDup_cons. split; [|apply NoDup_singleton].
    intros H%list_elem_of_singleton. discriminate H.
  - reflexivity.
Defined.

(** C1, as the code has it: a failed probe is read as an empty view.  The
    cycle appends one stopped entry for every name of the stored previous
    view, in the stored order, and stores the empty view; when the stored
    views are empty already the cycle changes nothing. *)
Theorem failed_probe_cycle isoformat (probe : RunOutcome) (s : State) :
  run_failed probe →
  let s' := exec (monitor_cycle isoformat probe) s in
  container_status s' = []
  ∧ previous_status s' = []
  ∧ (∃ new,
       entries (changelog s') = entries (changelog s) ++ new
       ∧ call_of <$> new
         = (λ name, event_call (Stopped name))
             <$> PyDict.keys (previous_status s))
  ∧ (container_status s = [] → previous_status s = [] → s' = s).
Proof.
  intros Hfail s'.
  assert (Hrun : s' = set_previous_status []
                   (set_container_status []
                      (exec (record_all isoformat
                               (Stopped <$> PyDict.keys (previous_status s)))
                         s))).
  { unfold s', monitor_cycle. rewrite exec_bind.
    unfold result, exec at 2. rewrite failed_probe_empty by done. cbn [fst snd].
    rewrite exec_bind. unfold exec at 2. rewrite check_status_changes_run.
    unfold events_in_order. cbn [omap list_omap app].
    by rewrite disappeared_all. }
  rewrite Hrun. split_and!; [done | done | |].
  - destruct (record_all_entries isoformat
                (Stopped <$> PyDict.keys (previous_status s)) s)
      as (new & He & Hc).
    exists new. split; [exact He|]. by rewrite Hc, <- list_fmap_compose.
  - intros Hcs Hps. rewrite Hps. by destruct s; simplify_eq/=.
Qed.

Lemma failed_probe_cycle_witness :
  run_failed Sample.daemon_down
  ∧ container_status
      (exec (monitor_cycle Sample.iso Sample.daemon_down) Sample.watching)
    = [].
Proof.
  assert (H : run_failed Sample.daemon_down) by (simpl; lia).
  split; [exact H|].
  exact (proj1 (failed_probe_cycle Sample.iso Sample.daemon_down
                  Sample.watching H)).
Defined.

(** The sentence of C1 as the specification words it fails: with one
    container in the stored view, a probe that exits with code 1 empties
    the view and adds an entry. *)
Lemma failed_probe_changes_state :
  run_failed Sample.daemon_down
  ∧ ¬ failed_probe_keeps Sample.iso Sample.daemon_down Sample.watching.
Proof.
  split; [simpl; lia|]. intros [H _]. vm_compute in H. discriminate H.
Qed.

(** The three examples of the specification's list of properties. *)
Example diff_one_started :
  diff_spec [("A", "running")]
    [("A", Sample.info "A" "running"); ("B", Sample.info "B" "running")]
  = [Started "B" "running"]
  ∧ events_in_order [("A", "running")]
      [("A", Sample.info "A" "running"); ("B", Sample.info "B" "running")]
    = [Started "B" "running"].
Proof. split; reflexivity. Qed.

Example diff_one_status_changed :
  diff_spec [("A", "running"); ("B", "running")]
    [("A", Sample.info "A" "stopped"); ("B", Sample.info "B" "running")]
  = [StatusChanged "A" "running" "stopped"]
  ∧ events_in_order [("A", "running"); ("B", "running")]
      [("A", Sample.info "A" "stopped"); ("B", Sample.info "B" "running")]
    = [StatusChanged "A" "running" "stopped"].
Proof. split; reflexivity. Qed.

Example diff_one_stopped :
  diff_spec [("A", "running")] [] = [Stopped "A"]
  ∧ events_in_order [("A", "running")] [] = [Stopped "A"].
Proof. split; reflexivity. Qed.

(** ** Claims about the manual commands *)

Lemma command_success isoformat (c : AppendCall) (r : ControlResult) s :
  success r = true →
  succeeds_appending (append isoformat c ;;; ret r) c s.
Proof.
  intros Hr. split.
  - by rewrite result_bind.
  - exists (result (append isoformat c) s).
    rewrite exec_then_ret, append_entries.
    split; [done | apply append_result].
Qed.

(** C2, as the code has it: a start, stop or restart command that exits
    with code zero reports success and appends exactly one entry, tagged
    container_started, container_stopped or container_restarted, of level
    info, whose detail text says that the container was started, stopped
    or restarted manually; its actor is "system", the default of
    [add_entry], since the commands name no actor. *)
Theorem manual_commands_append_one isoformat
    (container_name stdout stderr : string) (s : State) :
  succeeds_appending
    (start_container isoformat container_name (Completed 0 stdout stderr))
    (mkAppendCall "container_started"
       ("Container '" +:+ container_name +:+ "' started manually")
       "system" "info") s
  ∧ succeeds_appending
      (stop_container isoformat container_name (Completed 0 stdout stderr))
      (mkAppendCall "container_stopped"
         ("Container '" +:+ container_name +:+ "' stopped manually")
         "system" "info") s
  ∧ succeeds_appending
      (restart_container isoformat container_name (Completed 0 stdout stderr))
      (mkAppendCall "container_restarted"
         ("Container '" +:+ container_name +:+ "' restarted manually")
         "system" "info") s.
Proof.
  split_and!;
    exact (command_success isoformat (mkAppendCall _ _ _ _)
             (mkControlResult true _) s eq_refl).
Qed.

(** The sentence of C2 as the specification words it fails: the entry that
    a successful start appends has the actor "system", not "manual". *)
Lemma manual_start_actor_is_system :
  ¬ appends_manual_entry
      (start_container Sample.iso "web" Sample.done_ok)
      "container_started" Sample.fresh.
Proof.
  intros (e & He & _ & Hu). vm_compute in He.
  injection He as <-. discriminate Hu.
Qed.

(** C3: a start, stop or restart command that exits with a code other
    than zero, or that raises (as it does when its time limit passes),
    reports failure with a message that ends in the captured error text
    (the error output of the command, or the text of the exception) and
    leaves the changelog, like all of the state, as it was. *)
Theorem failed_commands_append_nothing isoformat
    (container_name : string) (run : RunOutcome) (s : State) :
  run_failed run →
  fails_with (start_container isoformat container_name run)
    (error_text run) s
  ∧ fails_with (stop_container isoformat container_name run)
      (error_text run) s
  ∧ fails_with (restart_container isoformat container_name run)
      (error_text run) s.
Proof.
  intros Hfail. unfold fails_with.
  destruct run as [rc out err|exc]; simpl in *.
  - rewrite (proj2 (Z.eqb_neq rc 0) Hfail). split_and!; by eexists.
  - split_and!; by eexists.
Qed.

Lemma failed_commands_append_nothing_witness :
  run_failed Sample.timed_out
  ∧ fails_with (start_container Sample.iso "web" Sample.timed_out)
      (error_text Sample.timed_out) Sample.logged.
Proof.
  assert (H : run_failed Sample.timed_out) by exact I.
  split; [exact H|].
  exact (proj1 (failed_commands_append_nothing Sample.iso "web"
                  Sample.timed_out Sample.logged H)).
Defined.

(** * Further properties *)

(** ** The store only grows *)

Lemma same_store_refl s : same_store s s.
Proof. done. Qed.

Lemma same_store_trans s1 s2 s3 :
  same_store s1 s2 → same_store s2 s3 → same_store s1 s3.
Proof. intros (?&?&?) (?&?&?). unfold same_store. split_and!; congruence. Qed.

Lemma same_store_ticks n s : same_store s (set_ticks n s).
Proof. done. Qed.

Section Traces.
Variable isoformat : Z → string.
Variable fromisoformat : string → option Z.
Variable has_tzinfo : string → bool.
Variable BTPI_TOOLS : PyDict.dict ToolInfo.

Local Abbreviation trace := (append_trace isoformat).

Lemma append_store c s :
  changelog (exec (append isoformat c) s)
  = {| entries := entries (changelog s) ++ [result (append isoformat c) s];
       metadata :=
         {| created := created (metadata (changelog s));
            version := version (metadata (changelog s));
            total_entries := S (length (entries (changelog s))) |} |}
  ∧ file (exec (append isoformat c) s)
    = (if writable s then Stored (changelog (exec (append isoformat c) s))
       else file s)
  ∧ writable (exec (append isoformat c) s) = writable s.
Proof.
  unfold append, exec, result. rewrite add_entry_run. cbn [fst snd changelog file writable].
  rewrite length_app. simpl. split_and!; [do 3 f_equal; lia | done | done].
Qed.

Lemma trace_same_l s s0 s' :
  same_store s s0 → trace s0 s' → trace s s'.
Proof.
  intros Hs Ht. revert s Hs. induction Ht as [s0 s' H|s0 s1 c s' H Ht IH];
    intros s Hs.
  - apply trace_done. by eapply same_store_trans.
  - eapply trace_append; [|exact Ht]. by eapply same_store_trans.
Qed.

Lemma trace_trans s1 s2 s3 : trace s1 s2 → trace s2 s3 → trace s1 s3.
Proof.
  intros H12 H23. induction H12 as [s1 s2 H|s1 s0 c s2 H Ht IH].
  - by eapply trace_same_l.
  - eapply trace_append; [exact H|]. by apply IH.
Qed.

Lemma trace_one c s : trace s (exec (append isoformat c) s).
Proof. eapply trace_append; [apply same_store_refl|]. by apply trace_done. Qed.

(** What holds of every state that a trace reaches. *)
Lemma trace_prefix s s' :
  trace s s' → entries (changelog s) `prefix_of` entries (changelog s').
Proof.
  induction 1 as [s s' (Hc&_&_)|s s0 c s' (Hc&_&_) Ht IH].
  - by rewrite Hc.
  - destruct (append_store c s0) as (Hcl & _ & _). rewrite Hcl in IH.
    cbn [entries] in IH. rewrite Hc in IH.
    etrans; [|exact IH]. by apply prefix_app_r.
Qed.

Lemma trace_ids s s' :
  trace s s' → ids_sequential (changelog s) → ids_sequential (changelog s').
Proof.
  unfold ids_sequential.
  induction 1 as [s s' (Hc&_&_)|s s0 c s' (Hc&_&_) Ht IH]; intros Hids.
  - by rewrite Hc.
  - apply IH. destruct (append_store c s0) as (Hcl & _ & _). rewrite Hcl.
    cbn [entries]. rewrite Hc, fmap_app, length_app, Hids. simpl.
    rewrite (proj2 (append_result isoformat c s0)), Hc.
    by rewrite seq_app.
Qed.

Lemma trace_sync s s' :
  trace s s' → writable s = true → in_sync s →
  writable s' = true ∧ in_sync s'.
Proof.
  unfold in_sync.
  induction 1 as [s s' (Hc&Hf&Hw)|s s0 c s' (Hc&Hf&Hw) Ht IH]; intros Hwr Hsync.
  - rewrite Hc, Hf, Hw. done.
  - destruct (append_store c s0) as (_ & Hfile & Hwa).
    rewrite Hw, Hwr in Hfile, Hwa. by apply IH.
Qed.

Lemma trace_total s s' :
  trace s s' →
  total_entries (metadata (changelog s)) = length (entries (changelog s)) →
  total_entries (metadata (changelog s'))
  = length (entries (changelog s')).
Proof.
  induction 1 as [s s' (Hc&_&_)|s s0 c s' (Hc&_&_) Ht IH]; intros Htot.
  - by rewrite Hc.
  - apply IH. destruct (append_store c s0) as (Hcl & _ & _). rewrite Hcl.
    cbn [metadata total_entries entries]. rewrite length_app. simpl. lia.
Qed.


End Traces.

(** ** Operations that only read the clock *)


Lemma clock_only_refl s : clock_only s s.
Proof. exists 0. destruct s. unfold set_ticks. simpl. f_equal. lia. Qed.

Lemma clock_only_trans s1 s2 s3 :
  clock_only s1 s2 → clock_only s2 s3 → clock_only s1 s3.
Proof.
  intros [n ->] [m ->]. exists (n + m). unfold set_ticks. simpl. f_equal. lia.
Qed.

Lemma clock_only_tick s : clock_only s (set_ticks (S (ticks s)) s).
Proof. exists 1. f_equal. lia. Qed.

Lemma clock_only_store s s' : clock_only s s' → same_store s s'.
Proof. by intros [n ->]. Qed.

Lemma clock_only_views s s' :
  clock_only s s' →
  container_status s' = container_status s
  ∧ previous_status s' = previous_status s
  ∧ monitoring s' = monitoring s.
Proof. by intros [n ->]. Qed.

Section ClockOnly.
Variable isoformat : Z → string.
Variable fromisoformat : string → option Z.
Variable has_tzinfo : string → bool.
Variable BTPI_TOOLS : PyDict.dict ToolInfo.

Lemma parse_line_clock line (containers : PyDict.dict ContainerInfo) s :
  clock_only s (exec (parse_line isoformat containers line) s).
Proof.
  destruct (decide (5 ≤ columns line)) as [Hw|Hn];
    [destruct (decide (PyStr.strip line = "")) as [Hb|Hb]|].
  - unfold exec, parse_line. rewrite Hb. apply clock_only_refl.
  - unfold exec. rewrite parse_line_row by done. apply clock_only_tick.
  - unfold exec. rewrite parse_line_skip by lia. apply clock_only_refl.
Qed.

Lemma parse_lines_clock lines (containers : PyDict.dict ContainerInfo) s :
  clock_only s (exec (fold_each lines (parse_line isoformat) containers) s).
Proof.
  revert containers s. induction lines as [|line lines IH]; intros cs s.
  - apply clock_only_refl.
  - cbn [fold_each]. rewrite exec_bind.
    eapply clock_only_trans; [apply parse_line_clock | apply IH].
Qed.

(** Probing the runtime reads the clock and nothing else changes. *)
Lemma get_all_container_status_clock probe s :
  clock_only s (exec (get_all_container_status isoformat probe) s).
Proof.
  destruct probe as [rc out err|exc]; [|apply clock_only_refl].
  cbn [get_all_container_status].
  destruct (rc =? 0)%Z; [apply parse_lines_clock | apply clock_only_refl].
Qed.

Lemma is_recent_clock ts hours s :
  clock_only s (exec (_is_recent fromisoformat has_tzinfo ts hours) s).
Proof.
  unfold _is_recent.
  destruct (fromisoformat ts);
    [|destruct (has_tzinfo ts); [|apply clock_only_refl]].
  - rewrite exec_bind. apply clock_only_tick.
  - rewrite exec_bind. apply clock_only_tick.
Qed.

Lemma map_each_clock {A B} (f : A → M B) (l : list A) s :
  (∀ x s0, clock_only s0 (exec (f x) s0)) →
  clock_only s (exec (map_each l f) s).
Proof.
  intros Hf. revert s. induction l as [|x l IH]; intros s.
  - apply clock_only_refl.
  - cbn [map_each]. rewrite !exec_bind.
    eapply clock_only_trans; [apply Hf | apply IH].
Qed.

Lemma get_stats_clock s : clock_only s (exec (get_stats fromisoformat has_tzinfo) s).
Proof.
  unfold get_stats. rewrite !exec_bind.
  unfold exec at 1. rewrite (fold_each_pure count_entry). cbn [snd].
  unfold gets at 1 2. cbn [result exec fst snd].
  apply map_each_clock. intros e s0. apply is_recent_clock.
Qed.

Lemma get_tool_container_status_clock probe s :
  clock_only s
    (exec (get_tool_container_status isoformat BTPI_TOOLS probe) s).
Proof.
  unfold get_tool_container_status. rewrite exec_bind.
  apply get_all_container_status_clock.
Qed.

Lemma get_container_count_same run s :
  exec (get_container_count run) s = s.
Proof.
  destruct run as [rc out err|exc]; [|done]. cbn [get_container_count].
  by destruct (rc =? 0)%Z.
Qed.

End ClockOnly.

(** ** Every operation is a trace *)

Section OperationTraces.
Variable isoformat : Z → string.
Variable fromisoformat : string → option Z.
Variable has_tzinfo : string → bool.
Variable BTPI_TOOLS : PyDict.dict ToolInfo.

Local Abbreviation trace := (append_trace isoformat).

Lemma trace_clock s s' : clock_only s s' → trace s s'.
Proof. intros H. by apply trace_done, clock_only_store. Qed.

Lemma record_all_trace evs s : trace s (exec (record_all isoformat evs) s).
Proof.
  revert s. induction evs as [|ev evs IH]; intros s.
  - apply trace_done, same_store_refl.
  - unfold exec. rewrite record_all_cons.
    eapply trace_trans; [apply trace_one | apply IH].
Qed.

Lemma check_status_changes_trace current s :
  trace s (exec (_check_status_changes isoformat current) s).
Proof.
  unfold exec. rewrite check_status_changes_run. apply record_all_trace.
Qed.

Lemma monitor_cycle_trace probe s :
  trace s (exec (monitor_cycle isoformat probe) s).
Proof.
  unfold monitor_cycle. rewrite !exec_bind.
  eapply trace_trans;
    [apply trace_clock, get_all_container_status_clock|].
  eapply trace_trans; [apply check_status_changes_trace|].
  by apply trace_done.
Qed.

Lemma run_operation_trace op s :
  trace s (exec (run_operation isoformat fromisoformat has_tzinfo BTPI_TOOLS op) s).
Proof.
  destruct op as [c|limit lvl| |probe|probe|run|probe|n run|n run|n run];
    cbn [run_operation]; try rewrite exec_then_ret.
  - apply trace_one.
  - apply trace_done, same_store_refl.
  - apply trace_clock, get_stats_clock.
  - apply monitor_cycle_trace.
  - apply trace_clock, get_all_container_status_clock.
  - rewrite get_container_count_same. apply trace_done, same_store_refl.
  - apply trace_clock, get_tool_container_status_clock.
  - destruct run as [rc out err|exc]; [|apply trace_done, same_store_refl].
    cbn [start_container].
    destruct (rc =? 0)%Z; [|apply trace_done, same_store_refl].
    rewrite exec_then_ret.
    apply (trace_one isoformat (mkAppendCall _ _ _ _)).
  - destruct run as [rc out err|exc]; [|apply trace_done, same_store_refl].
    cbn [stop_container].
    destruct (rc =? 0)%Z; [|apply trace_done, same_store_refl].
    rewrite exec_then_ret.
    apply (trace_one isoformat (mkAppendCall _ _ _ _)).
  - destruct run as [rc out err|exc]; [|apply trace_done, same_store_refl].
    cbn [restart_container].
    destruct (rc =? 0)%Z; [|apply trace_done, same_store_refl].
    rewrite exec_then_ret.
    apply (trace_one isoformat (mkAppendCall _ _ _ _)).
Qed.

Lemma run_operations_trace ops s :
  trace s (exec (run_operations isoformat fromisoformat has_tzinfo BTPI_TOOLS ops) s).
Proof.
  revert s. induction ops as [|op ops IH]; intros s.
  - apply trace_done, same_store_refl.
  - unfold run_operations. cbn [for_each]. rewrite exec_bind.
    eapply trace_trans; [apply run_operation_trace | apply IH].
Qed.

Lemma monitor_loop_trace probes s :
  trace s (exec (_monitor_loop isoformat probes) s).
Proof.
  revert s. induction probes as [|probe probes IH]; intros s.
  - apply trace_done, same_store_refl.
  - cbn [_monitor_loop]. rewrite exec_bind.
    unfold gets at 1 2. cbn [result exec fst snd].
    destruct (monitoring s); [|apply trace_done, same_store_refl].
    fold (exec (monitor_cycle isoformat probe ;;; _monitor_loop isoformat probes) s).
    rewrite exec_bind.
    eapply trace_trans; [apply monitor_cycle_trace | apply IH].
Qed.

End OperationTraces.

(** ** Properties of runs *)

(** X1: whatever the routes and the monitor do, in whatever order, the
    entries that were in the changelog stay in it, unchanged and at the
    same places: later entries are only added behind them. *)
Theorem run_operations_append_only isoformat fromisoformat has_tzinfo BTPI_TOOLS
    (ops : list Operation) (s : State) :
  entries (changelog s)
  `prefix_of`
  entries (changelog
             (exec (run_operations isoformat fromisoformat has_tzinfo BTPI_TOOLS ops) s)).
Proof. eapply trace_prefix, run_operations_trace. Qed.

(** X2: a store whose ids count up from 1 and whose recorded total is its
    number of entries stays so through any run of operations. *)
Theorem run_operations_keep_ids isoformat fromisoformat has_tzinfo BTPI_TOOLS
    (ops : list Operation) (s : State) :
  ids_sequential (changelog s) →
  total_entries (metadata (changelog s)) = length (entries (changelog s)) →
  let s' := exec (run_operations isoformat fromisoformat has_tzinfo BTPI_TOOLS ops) s in
  ids_sequential (changelog s')
  ∧ total_entries (metadata (changelog s')) = length (entries (changelog s')).
Proof.
  intros Hids Htot s'. split.
  - eapply trace_ids; [apply run_operations_trace | done].
  - eapply trace_total; [apply run_operations_trace | done].
Qed.

Lemma run_operations_keep_ids_witness :
  ids_sequential (changelog Sample.fresh)
  ∧ ids_sequential
      (changelog (exec (run_operations Sample.iso Sample.parse Sample.tzinfo Sample.tools
                          Sample.session) Sample.fresh)).
Proof.
  assert (H : ids_sequential (changelog Sample.fresh)) by reflexivity.
  split; [exact H|].
  exact (proj1 (run_operations_keep_ids Sample.iso Sample.parse Sample.tzinfo Sample.tools
                  Sample.session Sample.fresh H eq_refl)).
Defined.

(** X3: while the changelog file can be written, it holds after every
    operation exactly the document that is in memory, provided it did so
    at the start: each append is saved before the operation returns. *)
Theorem run_operations_keep_file_in_sync isoformat fromisoformat has_tzinfo BTPI_TOOLS
    (ops : list Operation) (s : State) :
  writable s = true → in_sync s →
  in_sync (exec (run_operations isoformat fromisoformat has_tzinfo BTPI_TOOLS ops) s).
Proof.
  intros Hw Hs.
  by eapply trace_sync; [apply run_operations_trace | done | done].
Qed.

Lemma run_operations_keep_file_in_sync_witness :
  writable Sample.synced = true ∧ in_sync Sample.synced
  ∧ in_sync (exec (run_operations Sample.iso Sample.parse Sample.tzinfo Sample.tools
                     Sample.session) Sample.synced).
Proof.
  assert (Hw : writable Sample.synced = true) by reflexivity.
  assert (Hs : in_sync Sample.synced) by reflexivity.
  split_and!; [exact Hw | exact Hs |].
  exact (run_operations_keep_file_in_sync Sample.iso Sample.parse Sample.tzinfo
           Sample.tools Sample.session Sample.synced Hw Hs).
Defined.


(** ** Persistence *)

Lemma load_in_sync isoformat s :
  in_sync s → load_changelog isoformat s = (tt, s).
Proof.
  unfold in_sync, load_changelog. intros Hs. rewrite bind_run.
  unfold gets at 1 2. cbn [result exec fst snd]. rewrite Hs.
  unfold modify, set_changelog. by destruct s.
Qed.

(** X5: saving and loading again gives back the same store: after any run
    that started with a writable file holding the document in memory,
    [load_changelog] finds that very document, entries and metadata, and
    changes nothing. *)
Theorem reload_after_run isoformat fromisoformat has_tzinfo BTPI_TOOLS
    (ops : list Operation) (s : State) :
  writable s = true → in_sync s →
  let s' := exec (run_operations isoformat fromisoformat has_tzinfo BTPI_TOOLS ops) s in
  load_changelog isoformat s' = (tt, s').
Proof.
  intros Hw Hs s'. apply load_in_sync.
  by eapply trace_sync; [apply run_operations_trace | done | done].
Qed.

Lemma reload_after_run_witness :
  writable Sample.synced = true ∧ in_sync Sample.synced
  ∧ changelog
      (exec (load_changelog Sample.iso)
         (exec (run_operations Sample.iso Sample.parse Sample.tzinfo Sample.tools
                  Sample.session) Sample.synced))
    = changelog
        (exec (run_operations Sample.iso Sample.parse Sample.tzinfo Sample.tools
                 Sample.session) Sample.synced).
Proof.
  assert (Hw : writable Sample.synced = true) by reflexivity.
  assert (Hs : in_sync Sample.synced) by reflexivity.
  split_and!; [exact Hw | exact Hs |].
  unfold exec at 1.
  by rewrite (reload_after_run Sample.iso Sample.parse Sample.tzinfo Sample.tools
                Sample.session Sample.synced Hw Hs).
Defined.

(** X6: a changelog file that cannot be read is not touched by loading: the
    store starts empty in memory and the file is replaced only by the
    first append, by a document that holds that one entry, numbered 1. *)
Theorem unreadable_file_replaced_by_first_append isoformat
    (c : AppendCall) (s : State) :
  file s = Unreadable → writable s = true →
  let loaded := exec (load_changelog isoformat) s in
  let s' := exec (append isoformat c) loaded in
  file loaded = Unreadable
  ∧ entries (changelog loaded) = []
  ∧ file s' = Stored (changelog s')
  ∧ entries (changelog s') = [result (append isoformat c) loaded]
  ∧ id (result (append isoformat c) loaded) = 1.
Proof.
  intros Hf Hw loaded s'.
  assert (Hl : loaded
               = set_changelog
                   (empty_changelog isoformat (wall_clock s (ticks s)))
                   (set_ticks (S (ticks s)) s)).
  { unfold loaded, load_changelog. rewrite exec_bind.
    unfold gets at 1 2. cbn [result exec fst snd]. by rewrite Hf. }
  destruct (append_store isoformat c loaded) as (Hcl & Hfile & _).
  destruct (append_result isoformat c loaded) as [_ Hid].
  split_and!.
  - by rewrite Hl.
  - by rewrite Hl.
  - unfold s'. rewrite Hfile. by rewrite Hl at 1; cbn; rewrite Hw.
  - unfold s'. rewrite Hcl. by rewrite Hl at 1.
  - rewrite Hid. by rewrite Hl.
Qed.

Lemma unreadable_file_replaced_by_first_append_witness :
  file Sample.corrupt = Unreadable ∧ writable Sample.corrupt = true
  ∧ file (exec (load_changelog Sample.iso) Sample.corrupt) = Unreadable.
Proof.
  assert (Hf : file Sample.corrupt = Unreadable) by reflexivity.
  assert (Hw : writable Sample.corrupt = true) by reflexivity.
  split_and!; [exact Hf | exact Hw |].
  exact (proj1 (unreadable_file_replaced_by_first_append Sample.iso
                  (mkAppendCall "system_startup" "started" "system" "info")
                  Sample.corrupt Hf Hw)).
Defined.

(** ** Reading *)

(** X7: whatever the limit and the level, also a negative limit or an empty
    level, a read returns entries of the changelog in their stored order,
    none twice and none made up, and changes nothing. *)
Theorem get_entries_sublist (limit : option Z) (lvl : option string)
    (s : State) :
  result (get_entries limit lvl) s `sublist_of` entries (changelog s)
  ∧ exec (get_entries limit lvl) s = s.
Proof.
  split; [|done].
  unfold get_entries, result, bind, gets, ret. cbn [fst].
  destruct (truthy_str lvl), (truthy_int limit).
  - etrans; [apply sublist_drop | apply sublist_filter].
  - apply sublist_filter.
  - apply sublist_drop.
  - reflexivity.
Qed.

Lemma slice_from_skip {A} (k : Z) (l : list A) :
  (0 ≤ k)%Z → slice_from k l = drop (Z.to_nat k) l.
Proof.
  intros Hk. unfold slice_from.
  assert ((k <? 0)%Z = false) as -> by (apply Z.ltb_ge; lia).
  destruct (decide (k ≤ Z.of_nat (length l))%Z) as [Hle|Hgt].
  - f_equal. lia.
  - rewrite !drop_ge by lia. done.
Qed.

(** X8: a negative limit does not bound the answer: the read skips that many
    of the oldest entries and returns all the others. *)
Theorem get_entries_negative_limit (n : Z) (s : State) :
  (n < 0)%Z →
  result (get_entries (Some n) None) s
  = drop (Z.to_nat (- n)) (entries (changelog s)).
Proof.
  intros Hn. unfold get_entries, result, bind, gets, ret. cbn [fst].
  cbn [truthy_str truthy_int].
  assert ((n =? 0)%Z = false) as -> by (apply Z.eqb_neq; lia).
  cbn [negb]. change (default 0%Z (Some n)) with n.
  apply slice_from_skip. lia.
Qed.

Lemma get_entries_negative_limit_witness :
  (-1 < 0)%Z ∧ result (get_entries (Some (-1)%Z) None) Sample.logged = [].
Proof.
  assert (H : (-1 < 0)%Z) by lia.
  split; [exact H|].
  exact (get_entries_negative_limit (-1) Sample.logged H).
Defined.

(** ** Statistics *)

Lemma default_reported n : default 0 (reported n) = n.
Proof. unfold reported. by destruct (decide (n = 0)) as [->|]. Qed.

Lemma count_up_lookup k k' (m : gmap string nat) (f : string → nat) :
  (∀ j, m !! j = reported (f j)) →
  count_up k m !! k'
  = reported (f k' + if decide (k = k') then 1 else 0).
Proof.
  intros Hm. unfold count_up. destruct (decide (k = k')) as [->|Hne].
  - rewrite lookup_insert_eq, Hm, default_reported.
    unfold reported. by rewrite decide_False by lia.
  - rewrite lookup_insert_ne by done. rewrite Hm. f_equal. lia.
Qed.

Lemma count_entries_histogram (es : list Entry) (st : Stats)
    (fl fa : string → nat) :
  (∀ j, by_level st !! j = reported (fl j)) →
  (∀ j, by_action st !! j = reported (fa j)) →
  (∀ j, by_level (foldl count_entry st es) !! j
        = reported (fl j + count_level j es))
  ∧ (∀ j, by_action (foldl count_entry st es) !! j
          = reported (fa j + count_action j es))
  ∧ recent_activity (foldl count_entry st es) = recent_activity st.
Proof.
  revert st fl fa. induction es as [|e es IH]; intros st fl fa Hl Ha.
  - unfold count_level, count_action. simpl. split_and!; [| |done].
    + intros j. rewrite Hl. f_equal. lia.
    + intros j. rewrite Ha. f_equal. lia.
  - simpl.
    destruct (IH (count_entry st e)
                (λ j, fl j + if decide (level e = j) then 1 else 0)
                (λ j, fa j + if decide (action e = j) then 1 else 0))
      as (Hl' & Ha' & Hr').
    + intros j. by apply count_up_lookup.
    + intros j. by apply count_up_lookup.
    + split_and!; [| |done].
      * intros j. rewrite Hl'. f_equal. unfold count_level.
        rewrite filter_cons. destruct (decide (level e = j)); simpl; lia.
      * intros j. rewrite Ha'. f_equal. unfold count_action.
        rewrite filter_cons. destruct (decide (action e = j)); simpl; lia.
Qed.

Lemma get_stats_run fromisoformat has_tzinfo s :
  result (get_stats fromisoformat has_tzinfo) s
  = foldl count_entry
      {| stats_total_entries := length (entries (changelog s));
         by_level := ∅; by_action := ∅;
         recent_activity :=
           length (filter (λ b, b = true)
                     (result (map_each (entries (changelog s))
                                (λ e, _is_recent fromisoformat has_tzinfo
                                        (timestamp e) 24)) s)) |}
      (entries (changelog s)).
Proof.
  unfold get_stats. rewrite !result_bind.
  unfold result at 1. rewrite (fold_each_pure count_entry). done.
Qed.

Lemma get_stats_levels fromisoformat has_tzinfo (s : State) (key : string) :
  by_level (result (get_stats fromisoformat has_tzinfo) s) !! key
  = reported (count_level key (entries (changelog s)))
  ∧ by_action (result (get_stats fromisoformat has_tzinfo) s) !! key
    = reported (count_action key (entries (changelog s))).
Proof.
  rewrite get_stats_run.
  match goal with |- context [foldl count_entry ?st ?es] =>
    destruct (count_entries_histogram es st (λ _, 0) (λ _, 0))
      as (Hl & Ha & _) end; [done | done |].
  by rewrite Hl, Ha.
Qed.

(** X9: the statistics report, for every level and for every action, the
    number of entries that carry it; a level or an action that no entry
    carries has no counter at all. *)
Theorem get_stats_histogram fromisoformat has_tzinfo (s : State) (key : string) :
  let stats := result (get_stats fromisoformat has_tzinfo) s in
  by_level stats !! key
  = reported (count_level key (entries (changelog s)))
  ∧ by_action stats !! key
    = reported (count_action key (entries (changelog s))).
Proof.
  intros stats. apply get_stats_levels.
Qed.

Lemma is_recent_parsed fromisoformat has_tzinfo ts hours s :
  result (_is_recent fromisoformat has_tzinfo ts hours) s = true →
  is_Some (fromisoformat ts).
Proof.
  unfold _is_recent. destruct (fromisoformat ts); [eauto|].
  destruct (has_tzinfo ts); discriminate.
Qed.

Lemma recent_flags_bound fromisoformat has_tzinfo (es : list Entry) s :
  length (filter (λ b, b = true)
            (result (map_each es
                       (λ e, _is_recent fromisoformat has_tzinfo (timestamp e) 24)) s))
  ≤ length (filter (λ e, is_Some (fromisoformat (timestamp e))) es).
Proof.
  revert s. induction es as [|e es IH]; intros s; [done|].
  cbn [map_each]. rewrite !result_bind. cbn [ret result fst].
  rewrite !filter_cons.
  specialize (IH (exec (_is_recent fromisoformat has_tzinfo (timestamp e) 24) s)).
  destruct (decide (result (_is_recent fromisoformat has_tzinfo (timestamp e) 24) s
                    = true)) as [Hrec|Hold].
  - rewrite decide_True by (by eapply is_recent_parsed). simpl. lia.
  - destruct (decide (is_Some (fromisoformat (timestamp e)))); simpl; lia.
Qed.

(** X10: the count of recent activity never exceeds the number of entries
    whose timestamp can be parsed: an entry with an unreadable timestamp
    is never counted, and never makes the statistics fail. *)
Theorem get_stats_recent_bound fromisoformat has_tzinfo (s : State) :
  let stats := result (get_stats fromisoformat has_tzinfo) s in
  recent_activity stats
  ≤ length (filter (λ e, is_Some (fromisoformat (timestamp e)))
              (entries (changelog s)))
  ∧ recent_activity stats ≤ stats_total_entries stats.
Proof.
  intros stats. unfold stats. rewrite get_stats_run.
  match goal with |- context [foldl count_entry ?st ?es] =>
    destruct (count_entries_histogram es st (λ _, 0) (λ _, 0))
      as (_ & _ & Hr); [done | done |];
    destruct (count_entries_totals es st) as (Ht & _ & _) end.
  rewrite Hr, Ht. cbn [recent_activity stats_total_entries].
  pose proof (recent_flags_bound fromisoformat has_tzinfo (entries (changelog s)) s) as Hb.
  split; [exact Hb|].
  etrans; [exact Hb | apply length_filter].
Qed.

(** ** What the runtime's listing yields *)

Lemma map_values_set {V W} (f : V → W) k v (d : PyDict.dict V) :
  PyDict.map_values f (PyDict.set k v d)
  = PyDict.set k (f v) (PyDict.map_values f d).
Proof.
  induction d as [|[k' v'] d IH]; [done|]. simpl.
  destruct (decide (k = k')); [done|]. simpl. by rewrite <- IH.
Qed.

Lemma fold_each_app {A B} (l1 l2 : list A) (body : B → A → M B) acc s :
  fold_each (l1 ++ l2) body acc s
  = fold_each l2 body (result (fold_each l1 body acc) s)
      (exec (fold_each l1 body acc) s).
Proof.
  revert acc s. induction l1 as [|x l1 IH]; intros acc s; [done|].
  simpl. rewrite bind_run, IH. by rewrite result_bind, exec_bind.
Qed.

Section Listing.
Variable isoformat : Z → string.

(** What holds of every record that a line stores holds of the view. *)
Lemma parse_lines_Forall (P : string * ContainerInfo → Prop) lines
    (containers : PyDict.dict ContainerInfo) s :
  (∀ line cs s0, 5 ≤ columns line → PyStr.strip line ≠ "" →
     ∃ k v, result (parse_line isoformat cs line) s0 = PyDict.set k v cs
            ∧ P (k, v)) →
  Forall P containers →
  Forall P (result (fold_each lines (parse_line isoformat) containers) s).
Proof.
  intros Hrow. revert containers s.
  induction lines as [|line lines IH]; intros cs s Hall; [done|].
  cbn [fold_each]. rewrite result_bind. apply IH.
  destruct (decide (5 ≤ columns line)) as [Hw|Hn];
    [destruct (decide (PyStr.strip line = "")) as [Hb|Hb]|].
  - unfold result, parse_line. by rewrite Hb.
  - destruct (Hrow line cs s Hw Hb) as (k & v & -> & HP).
    by apply set_Forall.
  - unfold result. by rewrite parse_line_skip by lia.
Qed.

Lemma status_type_of_colours text :
  status_type_of text ∈ status_colours.
Proof.
  unfold status_type_of, status_colours.
  repeat (case_match; [set_solver|]). set_solver.
Qed.

(** The statuses that a line stores do not depend on when it is read. *)
Lemma parse_line_statuses line (cs1 cs2 : PyDict.dict ContainerInfo) s1 s2 :
  PyDict.map_values status cs1 = PyDict.map_values status cs2 →
  PyDict.map_values status (result (parse_line isoformat cs1 line) s1)
  = PyDict.map_values status (result (parse_line isoformat cs2 line) s2).
Proof.
  intros Hcs.
  destruct (decide (5 ≤ columns line)) as [Hw|Hn];
    [destruct (decide (PyStr.strip line = "")) as [Hb|Hb]|].
  - unfold result, parse_line. by rewrite Hb.
  - unfold result. rewrite !parse_line_row by done. cbn [fst].
    by rewrite !map_values_set, Hcs.
  - unfold result. by rewrite !parse_line_skip by lia.
Qed.

Lemma parse_lines_statuses lines (cs1 cs2 : PyDict.dict ContainerInfo) s1 s2 :
  PyDict.map_values status cs1 = PyDict.map_values status cs2 →
  PyDict.map_values status
    (result (fold_each lines (parse_line isoformat) cs1) s1)
  = PyDict.map_values status
      (result (fold_each lines (parse_line isoformat) cs2) s2).
Proof.
  revert cs1 cs2 s1 s2.
  induction lines as [|line lines IH]; intros cs1 cs2 s1 s2 Hcs; [done|].
  cbn [fold_each]. rewrite !result_bind. apply IH.
  by apply parse_line_statuses.
Qed.

Lemma probe_statuses probe s1 s2 :
  PyDict.map_values status
    (result (get_all_container_status isoformat probe) s1)
  = PyDict.map_values status
      (result (get_all_container_status isoformat probe) s2).
Proof.
  destruct probe as [rc out err|exc]; [|done].
  cbn [get_all_container_status]. destruct (rc =? 0)%Z; [|done].
  by apply parse_lines_statuses.
Qed.

End Listing.

(** X11: every record of a view read from the runtime is filed under its own
    name, has one of the four status types running, stopped, created and
    unknown, and has the colour that goes with that type. *)
Theorem view_records_well_formed isoformat (probe : RunOutcome) (s : State) :
  Forall (λ item, name item.2 = item.1
                  ∧ (status item.2, color item.2) ∈ status_colours)
    (result (get_all_container_status isoformat probe) s).
Proof.
  destruct probe as [rc out err|exc]; [|by constructor].
  unfold result. cbn [get_all_container_status].
  destruct (rc =? 0)%Z; [|by constructor].
  apply parse_lines_Forall; [|by constructor].
  intros line cs s0 Hw Hb.
  unfold result. rewrite parse_line_row by done. cbn [fst].
  eexists _, _. split; [done|]. cbn [fst snd name status color].
  split; [done|].
  rewrite <- surjective_pairing. apply status_type_of_colours.
Qed.

(** X12: an output that is empty or all white space yields the empty view, and
    reading it changes nothing, not even the clock. *)
Theorem blank_output_empty_view isoformat (stdout stderr : string)
    (s : State) :
  PyStr.strip stdout = "" →
  get_all_container_status isoformat (Completed 0 stdout stderr) s = ([], s).
Proof.
  intros Hb. cbn [get_all_container_status Z.eqb]. by rewrite Hb.
Qed.

Lemma blank_output_empty_view_witness :
  PyStr.strip (String PyStr.newline " ") = ""
  ∧ get_all_container_status Sample.iso
      (Completed 0 (String PyStr.newline " ") "") Sample.watching
    = ([], Sample.watching).
Proof.
  assert (H : PyStr.strip (String PyStr.newline " ") = "") by reflexivity.
  split; [exact H|].
  exact (blank_output_empty_view Sample.iso _ "" Sample.watching H).
Defined.

(** X13: when several lines of a listing carry the same name, the last of them
    decides: after the loop over the lines, the record filed under the
    name of the last line is the one made from that line. *)
Theorem last_line_decides isoformat (lines : list string) (line : string)
    (containers : PyDict.dict ContainerInfo) (s : State) :
  5 ≤ columns line → PyStr.strip line ≠ "" →
  let parts := PyStr.split PyStr.tab line in
  let view :=
    result (fold_each (lines ++ [line]) (parse_line isoformat) containers) s in
  ∃ info,
    PyDict.get (PyStr.strip (nth 0 parts "")) view = Some info
    ∧ status_text info = PyStr.strip (nth 1 parts "")
    ∧ ports info = PyStr.strip (nth 2 parts "")
    ∧ image info = PyStr.strip (nth 3 parts "")
    ∧ size info = PyStr.strip (nth 4 parts "").
Proof.
  intros Hw Hb parts view. unfold view, result.
  rewrite fold_each_app. cbn [fold_each]. rewrite bind_run. cbn [ret fst].
  unfold result at 1. rewrite parse_line_row by done. cbn [fst].
  rewrite PyDictFacts.get_set, decide_True by done.
  eexists. split; [done|]. done.
Qed.

Lemma last_line_decides_witness :
  5 ≤ columns (Sample.row "web" "Up 2 hours")
  ∧ PyStr.strip (Sample.row "web" "Up 2 hours") ≠ ""
  ∧ ∃ info,
      PyDict.get "web"
        (result (fold_each ([Sample.row "web" "Exited (0)"]
                            ++ [Sample.row "web" "Up 2 hours"])
                   (parse_line Sample.iso) []) Sample.fresh) = Some info
      ∧ status_text info = "Up 2 hours".
Proof.
  assert (Hw : 5 ≤ columns (Sample.row "web" "Up 2 hours"))
    by (vm_compute; lia).
  assert (Hb : PyStr.strip (Sample.row "web" "Up 2 hours") ≠ "")
    by (vm_compute; discriminate).
  split_and!; [exact Hw | exact Hb |].
  destruct (last_line_decides Sample.iso [Sample.row "web" "Exited (0)"]
              (Sample.row "web" "Up 2 hours") [] Sample.fresh Hw Hb)
    as (info & Hget & Htext & _).
  exists info. split; [exact Hget | exact Htext].
Defined.

(** ** Cycles of the monitor *)

Section Cycles.
Variable isoformat : Z → string.

Lemma appeared_first (current : PyDict.dict ContainerInfo) :
  omap (appeared []) current
  = (λ item, Started item.1 (status item.2)) <$> current.
Proof. induction current as [|item current IH]; csimpl; by f_equal. Qed.

(** The stored views after a cycle, and the state in which the cycle
    diffs: the one the probe leaves. *)
Lemma monitor_cycle_run probe s :
  let view := result (get_all_container_status isoformat probe) s in
  let probed := exec (get_all_container_status isoformat probe) s in
  exec (monitor_cycle isoformat probe) s
  = set_previous_status (PyDict.map_values status view)
      (set_container_status view
         (exec (record_all isoformat
                  (events_in_order (previous_status s) view)) probed)).
Proof.
  intros view probed. unfold monitor_cycle. rewrite !exec_bind.
  fold view probed. unfold exec at 3. rewrite check_status_changes_run.
  destruct (clock_only_views s probed) as (_ & -> & _);
    [apply get_all_container_status_clock|].
  done.
Qed.

Lemma monitor_cycle_monitoring probe s :
  monitoring (exec (monitor_cycle isoformat probe) s) = monitoring s.
Proof.
  rewrite monitor_cycle_run. cbn [set_previous_status set_container_status monitoring].
  rewrite (proj2 (proj2 (record_all_frame isoformat _ _))).
  apply clock_only_views, get_all_container_status_clock.
Qed.

End Cycles.

(** X15: the first cycle of a process, whose stored view is still empty, logs
    every container of the listing as started, in the order of the
    listing, and nothing else. *)
Theorem first_cycle_logs_all_started isoformat (probe : RunOutcome)
    (s : State) :
  previous_status s = [] →
  let view := result (get_all_container_status isoformat probe) s in
  ∃ new,
    entries (changelog (exec (monitor_cycle isoformat probe) s))
    = entries (changelog s) ++ new
    ∧ call_of <$> new
      = (λ item, event_call (Started item.1 (status item.2))) <$> view.
Proof.
  intros Hprev view. rewrite monitor_cycle_run. fold view.
  cbn [set_previous_status set_container_status changelog].
  rewrite Hprev. unfold events_in_order. cbn [PyDict.keys fmap list_fmap omap list_omap].
  rewrite app_nil_r, appeared_first.
  destruct (record_all_entries isoformat
              ((λ item, Started item.1 (status item.2)) <$> view)
              (exec (get_all_container_status isoformat probe) s))
    as (new & He & Hc).
  exists new. rewrite He. split.
  - f_equal. f_equal.
    apply (clock_only_store s), get_all_container_status_clock.
  - by rewrite Hc, <- list_fmap_compose.
Qed.

Lemma first_cycle_logs_all_started_witness :
  previous_status Sample.fresh = []
  ∧ ∃ new,
      entries (changelog (exec (monitor_cycle Sample.iso Sample.listing)
                            Sample.fresh))
      = entries (changelog Sample.fresh) ++ new
      ∧ length new = 2.
Proof.
  assert (H : previous_status Sample.fresh = []) by reflexivity.
  split; [exact H|].
  destruct (first_cycle_logs_all_started Sample.iso Sample.listing
              Sample.fresh H) as (new & He & Hc).
  exists new. split; [exact He|].
  apply (f_equal length) in Hc. rewrite !length_fmap in Hc. exact Hc.
Defined.

(** X16: a fleet that does not change makes no noise: when two cycles in a row
    get the same listing from the runtime, the second one appends nothing,
    whatever the first one found, and leaves the changelog file alone. *)
Theorem repeated_listing_is_quiet isoformat (probe : RunOutcome) (s : State) :
  let s1 := exec (monitor_cycle isoformat probe) s in
  let s2 := exec (monitor_cycle isoformat probe) s1 in
  changelog s2 = changelog s1 ∧ file s2 = file s1
  ∧ previous_status s2 = previous_status s1.
Proof.
  intros s1 s2.
  destruct (monitor_cycle_stores isoformat probe s) as (Hcs & Hps & Hwf).
  fold s1 in Hcs, Hps, Hwf.
  assert (Hst : previous_status s1
                = PyDict.map_values status
                    (result (get_all_container_status isoformat probe) s1)).
  { rewrite Hps, Hcs. apply probe_statuses. }
  destruct (clock_only_store s1
              (exec (get_all_container_status isoformat probe) s1))
    as (Hc & Hf & _); [apply get_all_container_status_clock|].
  unfold s2. rewrite monitor_cycle_run. rewrite Hst.
  rewrite events_in_order_same by apply probe_view_wf.
  change (exec (record_all isoformat []) ?x) with x.
  split_and!; [exact Hc | exact Hf | done].
Qed.

(** X17: the monitor loop, over any number of probes, leaves the entries that
    were there in place, never flips its own run flag, and does nothing at
    all once the flag is off. *)
Theorem monitor_loop_append_only isoformat (probes : list RunOutcome)
    (s : State) :
  let s' := exec (_monitor_loop isoformat probes) s in
  entries (changelog s) `prefix_of` entries (changelog s')
  ∧ monitoring s' = monitoring s
  ∧ (monitoring s = false → s' = s).
Proof.
  intros s'. split_and!.
  - eapply trace_prefix, monitor_loop_trace.
  - unfold s'. clear s'. revert s.
    induction probes as [|probe probes IH]; intros s; [done|].
    cbn [_monitor_loop]. rewrite exec_bind.
    unfold gets at 1 2. cbn [result exec fst snd].
    destruct (monitoring s) eqn:Hm; [|done].
    fold (exec (monitor_cycle isoformat probe ;;; _monitor_loop isoformat probes) s).
    rewrite exec_bind, IH, monitor_cycle_monitoring. done.
  - intros Hm. unfold s'. destruct probes as [|probe probes]; [done|].
    cbn [_monitor_loop]. rewrite exec_bind.
    unfold gets at 1 2. cbn [result exec fst snd]. by rewrite Hm.
Qed.

(** X18: while the run flag is on, the statuses that the monitor holds after
    the loop are those of the last listing, whatever came before. *)
Theorem monitor_loop_stores_last isoformat (probes : list RunOutcome)
    (probe : RunOutcome) (s : State) :
  monitoring s = true →
  previous_status (exec (_monitor_loop isoformat (probes ++ [probe])) s)
  = PyDict.map_values status
      (result (get_all_container_status isoformat probe) s).
Proof.
  revert s. induction probes as [|p probes IH]; intros s Hm.
  - cbn [app _monitor_loop]. rewrite exec_bind.
    unfold gets at 1 2. cbn [result exec fst snd]. rewrite Hm.
    fold (exec (monitor_cycle isoformat probe ;;; ret tt) s).
    rewrite exec_then_ret.
    destruct (monitor_cycle_stores isoformat probe s) as (Hcs & Hps & _).
    by rewrite Hps, Hcs.
  - cbn [app _monitor_loop]. rewrite exec_bind.
    unfold gets at 1 2. cbn [result exec fst snd]. rewrite Hm.
    fold (exec (monitor_cycle isoformat p ;;;
                _monitor_loop isoformat (probes ++ [probe])) s).
    rewrite exec_bind, IH by (by rewrite monitor_cycle_monitoring).
    apply probe_statuses.
Qed.

Lemma monitor_loop_stores_last_witness :
  monitoring Sample.watching = true
  ∧ previous_status
      (exec (_monitor_loop Sample.iso ([Sample.daemon_down] ++ [Sample.listing]))
         Sample.watching)
    = [("web", "running"); ("db", "stopped")].
Proof.
  assert (H : monitoring Sample.watching = true) by reflexivity.
  split; [exact H|].
  rewrite (monitor_loop_stores_last Sample.iso [Sample.daemon_down]
             Sample.listing Sample.watching H).
  reflexivity.
Defined.

(** ** The status of the tools *)

Lemma tool_status_step_set (all_containers : PyDict.dict ContainerInfo)
    (tool_containers : PyDict.dict ToolEntry) (tool : string * ToolInfo) :
  tool_status_step all_containers tool_containers tool
  = PyDict.set tool.1 (tool_entry all_containers tool.2) tool_containers.
Proof.
  destruct tool as [tool_id tool_info].
  unfold tool_status_step, tool_entry. cbn [fst snd].
  by destruct (find_container _ _).
Qed.

Lemma tool_status_keys (all_containers : PyDict.dict ContainerInfo)
    (tools : PyDict.dict ToolInfo) (acc : PyDict.dict ToolEntry) :
  NoDup (PyDict.keys acc ++ PyDict.keys tools) →
  PyDict.keys (foldl (tool_status_step all_containers) acc tools)
  = PyDict.keys acc ++ PyDict.keys tools.
Proof.
  revert acc. induction tools as [|[tool_id ti] tools IH]; intros acc Hnd.
  - by rewrite app_nil_r.
  - cbn [foldl]. rewrite tool_status_step_set. cbn [fst snd].
    assert (Hk : PyDict.keys (PyDict.set tool_id
                                (tool_entry all_containers ti) acc)
                 = PyDict.keys acc ++ [tool_id]).
    { rewrite PyDictFacts.keys_set.
      destruct (PyDict.mem tool_id acc) eqn:Hm; [|done].
      apply PyDictFacts.mem_keys in Hm.
      apply NoDup_app in Hnd as (_ & Hdis & _).
      destruct (Hdis tool_id Hm). apply elem_of_cons. by left. }
    rewrite IH; rewrite Hk, <- app_assoc; done.
Qed.

Lemma tool_status_get_other (all_containers : PyDict.dict ContainerInfo)
    (tools : PyDict.dict ToolInfo) (acc : PyDict.dict ToolEntry) tool_id :
  tool_id ∉ PyDict.keys tools →
  PyDict.get tool_id (foldl (tool_status_step all_containers) acc tools)
  = PyDict.get tool_id acc.
Proof.
  unfold PyDict.keys.
  revert acc. induction tools as [|[k v] tools IH]; intros acc Hk; [done|].
  csimpl in Hk. apply not_elem_of_cons in Hk as [Hne Hk].
  cbn [foldl]. rewrite IH by done. rewrite tool_status_step_set.
  cbn [fst snd]. by rewrite PyDictFacts.get_set, decide_False.
Qed.

Lemma tool_status_get (all_containers : PyDict.dict ContainerInfo)
    (tools : PyDict.dict ToolInfo) (acc : PyDict.dict ToolEntry)
    tool_id ti :
  PyDict.wf tools → (tool_id, ti) ∈ tools →
  PyDict.get tool_id (foldl (tool_status_step all_containers) acc tools)
  = Some (tool_entry all_containers ti).
Proof.
  unfold PyDict.wf, PyDict.keys.
  revert acc. induction tools as [|[k v] tools IH]; intros acc Hwf Hin.
  - by apply elem_of_nil in Hin.
  - csimpl in Hwf. apply NoDup_cons in Hwf as [Hk Hwf]. cbn [foldl].
    apply elem_of_cons in Hin as [Heq|Hin]; [|by apply IH].
    injection Heq as <- <-.
    rewrite tool_status_get_other by done.
    rewrite tool_status_step_set. cbn [fst snd].
    by rewrite PyDictFacts.get_set, decide_True.
Qed.

(** The search through the names of a tool stops at the first one that
    the view holds. *)
Lemma find_container_first (absent rest : list string) c info
    (all_containers : PyDict.dict ContainerInfo) :
  (∀ x, x ∈ absent → PyDict.get x all_containers = None) →
  PyDict.get c all_containers = Some info →
  find_container (absent ++ c :: rest) all_containers = Some info.
Proof.
  intros Habs Hc. induction absent as [|x absent IH]; simpl.
  - by rewrite Hc.
  - rewrite (Habs x) by (apply elem_of_cons; by left).
    apply IH. intros y Hy. apply Habs. apply elem_of_cons. by right.
Qed.

Lemma find_container_empty (names : list string) :
  find_container names [] = None.
Proof. induction names as [|x names IH]; [done|]. exact IH. Qed.

(** X20: the tool status holds exactly one entry for every tool of the table,
    in the order of the table; asking for it reads the runtime and the
    clock and changes neither the changelog nor the stored views: a tool
    that is reported missing is not logged. *)
Theorem tool_status_covers_table isoformat (BTPI_TOOLS : PyDict.dict ToolInfo)
    (probe : RunOutcome) (s : State) :
  PyDict.wf BTPI_TOOLS →
  let tool_containers :=
    result (get_tool_container_status isoformat BTPI_TOOLS probe) s in
  let s' := exec (get_tool_container_status isoformat BTPI_TOOLS probe) s in
  PyDict.keys tool_containers = PyDict.keys BTPI_TOOLS
  ∧ changelog s' = changelog s ∧ file s' = file s
  ∧ container_status s' = container_status s
  ∧ previous_status s' = previous_status s.
Proof.
  intros Hwf tool_containers s'.
  destruct (clock_only_store s s') as (Hc & Hf & _);
    [apply get_tool_container_status_clock|].
  destruct (clock_only_views s s') as (Hcs & Hps & _);
    [apply get_tool_container_status_clock|].
  split_and!; [|done..].
  unfold tool_containers, get_tool_container_status.
  rewrite result_bind. cbn [ret result fst].
  by rewrite tool_status_keys.
Qed.

Lemma tool_status_covers_table_witness :
  PyDict.wf Sample.tools
  ∧ PyDict.keys (result (get_tool_container_status Sample.iso Sample.tools
                           Sample.listing) Sample.fresh)
    = ["velociraptor"; "portainer"].
Proof.
  assert (H : PyDict.wf Sample.tools).
  { unfold PyDict.wf, PyDict.keys. simpl.
    apply NoDup_cons. split; [|apply NoDup_singleton].
    intros H%list_elem_of_singleton. discriminate H. }
  split; [exact H|].
  exact (proj1 (tool_status_covers_table Sample.iso Sample.tools
                  Sample.listing Sample.fresh H)).
Defined.

(** X21: when the runtime cannot be asked, every tool of the table is reported
    as not found, under its display name and with its description. *)
Theorem tool_status_failed_probe isoformat (BTPI_TOOLS : PyDict.dict ToolInfo)
    (probe : RunOutcome) (s : State) (tool_id : string) (ti : ToolInfo) :
  run_failed probe → PyDict.wf BTPI_TOOLS → (tool_id, ti) ∈ BTPI_TOOLS →
  PyDict.get tool_id
    (result (get_tool_container_status isoformat BTPI_TOOLS probe) s)
  = Some (ToolMissing (tool_name ti) "not_found" "Container not running"
            "secondary" (default "" (tool_description ti))).
Proof.
  intros Hfail Hwf Hin. unfold get_tool_container_status.
  rewrite result_bind. cbn [ret result fst].
  fold (result (get_all_container_status isoformat probe) s).
  unfold result at 1. rewrite failed_probe_empty by done. cbn [fst].
  rewrite (tool_status_get [] BTPI_TOOLS [] tool_id ti Hwf Hin).
  unfold tool_entry. by rewrite find_container_empty.
Qed.

Lemma tool_status_failed_probe_witness :
  run_failed Sample.daemon_down ∧ PyDict.wf Sample.tools
  ∧ tool_entry_status
      <$> PyDict.get "portainer"
            (result (get_tool_container_status Sample.iso Sample.tools
                       Sample.daemon_down) Sample.fresh)
    = Some "not_found".
Proof.
  assert (Hf : run_failed Sample.daemon_down) by (simpl; lia).
  assert (Hw : PyDict.wf Sample.tools).
  { unfold PyDict.wf, PyDict.keys. simpl.
    apply NoDup_cons. split; [|apply NoDup_singleton].
    intros H%list_elem_of_singleton. discriminate H. }
  split_and!; [exact Hf | exact Hw |].
  rewrite (tool_status_failed_probe Sample.iso Sample.tools Sample.daemon_down
             Sample.fresh "portainer"
             (mkToolInfo "Portainer" (Some "Web-based container management")
                (Some ["portainer"; "btpi-portainer"])) Hf Hw).
  - reflexivity.
  - unfold Sample.tools. apply elem_of_cons. right.
    apply elem_of_cons. by left.
Defined.

(** X22: a tool is reported with the record of the first of its container
    names, in the order of the table, that the listing holds. *)
Theorem tool_status_first_listed isoformat (BTPI_TOOLS : PyDict.dict ToolInfo)
    (probe : RunOutcome) (s : State) (tool_id : string) (ti : ToolInfo)
    (absent rest : list string) (c : string) (info : ContainerInfo) :
  PyDict.wf BTPI_TOOLS → (tool_id, ti) ∈ BTPI_TOOLS →
  tool_container_names ti = Some (absent ++ c :: rest) →
  let view := result (get_all_container_status isoformat probe) s in
  (∀ x, x ∈ absent → PyDict.get x view = None) →
  PyDict.get c view = Some info →
  PyDict.get tool_id
    (result (get_tool_container_status isoformat BTPI_TOOLS probe) s)
  = Some (ToolContainer info).
Proof.
  intros Hwf Hin Hnames view Habs Hc. unfold get_tool_container_status.
  rewrite result_bind. cbn [ret result fst].
  fold (result (get_all_container_status isoformat probe) s). fold view.
  rewrite (tool_status_get view BTPI_TOOLS [] tool_id ti Hwf Hin).
  unfold tool_entry. rewrite Hnames.
  change (default [] (Some (absent ++ c :: rest))) with (absent ++ c :: rest).
  by rewrite (find_container_first absent rest c info view Habs Hc).
Qed.

(** ** The container count *)

Lemma split_length (sep : ascii) (s : string) :
  length (PyStr.split sep s) = S (occurrences sep s).
Proof.
  induction s as [|c s IH]; [done|]. cbn [PyStr.split occurrences].
  destruct (decide (c = sep)).
  - simpl. by rewrite IH.
  - destruct (PyStr.split sep s) eqn:E; simpl in *; [done | lia].
Qed.

(** X23: the container count is the number of line breaks in the trimmed
    output of the list command, that is, its lines less the header line;
    it is 0 for an empty output and whenever the command fails, and
    asking for it changes nothing. *)
Theorem container_count_counts_lines (run : RunOutcome) (s : State) :
  get_container_count run s
  = (match run with
     | Completed returncode stdout _ =>
         if (returncode =? 0)%Z
         then occurrences PyStr.newline (PyStr.strip stdout)
         else 0
     | Raised _ => 0
     end, s).
Proof.
  destruct run as [rc out err|exc]; [|done]. cbn [get_container_count].
  destruct (rc =? 0)%Z; [|done]. unfold ret. f_equal.
  rewrite split_length. case_bool_decide; lia.
Qed.

(** ** The manual commands *)

Lemma command_logs (c : AppendCall) (ok failed raised : string → ControlResult)
    isoformat (run : RunOutcome) s :
  (∀ t, success (ok t) = true) → (∀ t, success (failed t) = false) →
  (∀ t, success (raised t) = false) →
  logs_iff_success
    (λ run, match run with
            | Completed returncode _ stderr =>
                if (returncode =? 0)%Z
                then append isoformat c ;;; ret (ok stderr)
                else ret (failed stderr)
            | Raised e => ret (raised e)
            end) run s.
Proof.
  intros Hok Hfailed Hraised. unfold logs_iff_success.
  destruct run as [rc out err|exc].
  - destruct (rc =? 0)%Z eqn:Hrc.
    + apply Z.eqb_eq in Hrc as ->.
      rewrite result_bind, exec_then_ret. cbn [ret result fst].
      rewrite Hok, append_entries, length_app.
      destruct (append_frame isoformat c s) as (-> & -> & _).
      split_and!; [|done..]. split; [eauto | done].
    + apply Z.eqb_neq in Hrc. cbn [ret result exec fst snd].
      rewrite Hfailed. split_and!; [|lia|done..].
      split; [done|]. intros (? & ? & [= ? _ _]). done.
  - cbn [ret result exec fst snd]. rewrite Hraised.
    split_and!; [|lia|done..]. split; [done|]. by intros (? & ? & ?).
Qed.

(** X24: each of the three manual commands logs exactly when it succeeds: it
    reports success if and only if its [docker] call exited with code
    zero, the changelog is then one entry longer and otherwise as long as
    before, and in either case the stored views are as they were, so that
    a manual change shows in the view only after the next cycle. *)
Theorem manual_commands_log_iff_success isoformat
    (container_name : string) (run : RunOutcome) (s : State) :
  logs_iff_success (start_container isoformat container_name) run s
  ∧ logs_iff_success (stop_container isoformat container_name) run s
  ∧ logs_iff_success (restart_container isoformat container_name) run s.
Proof.
  split_and!.
  - exact (command_logs (mkAppendCall _ _ _ _)
             (λ _, mkControlResult true _) (λ e, mkControlResult false _)
             (λ e, mkControlResult false _) isoformat run s
             (λ _, eq_refl) (λ _, eq_refl) (λ _, eq_refl)).
  - exact (command_logs (mkAppendCall _ _ _ _)
             (λ _, mkControlResult true _) (λ e, mkControlResult false _)
             (λ e, mkControlResult false _) isoformat run s
             (λ _, eq_refl) (λ _, eq_refl) (λ _, eq_refl)).
  - exact (command_logs (mkAppendCall _ _ _ _)
             (λ _, mkControlResult true _) (λ e, mkControlResult false _)
             (λ e, mkControlResult false _) isoformat run s
             (λ _, eq_refl) (λ _, eq_refl) (λ _, eq_refl)).
Qed.


Lemma tool_status_first_listed_witness :
  PyDict.wf Sample.tools
  ∧ tool_entry_status
      <$> PyDict.get "portainer"
            (result (get_tool_container_status Sample.iso Sample.tools
                       Sample.tool_listing) Sample.fresh)
    = Some "running".
Proof.
  assert (Hw : PyDict.wf Sample.tools).
  { unfold PyDict.wf, PyDict.keys. simpl.
    apply NoDup_cons. split; [|apply NoDup_singleton].
    intros H%list_elem_of_singleton. discriminate H. }
  split; [exact Hw|].
  rewrite (tool_status_first_listed Sample.iso Sample.tools
             Sample.tool_listing Sample.fresh "portainer"
             (mkToolInfo "Portainer" (Some "Web-based container management")
                (Some ["portainer"; "btpi-portainer"]))
             ["portainer"] [] "btpi-portainer"
             (mkContainerInfo "btpi-portainer" "running" "Up 2 hours"
                "success" "80/tcp" "nginx" "0B" "2024-01-01T00:00:00") Hw).
  - reflexivity.
  - unfold Sample.tools. apply elem_of_cons. right.
    apply elem_of_cons. by left.
  - reflexivity.
  - intros x Hx. apply list_elem_of_singleton in Hx as ->. reflexivity.
  - reflexivity.
Defined.

(** ** Reading what was appended *)

(** X25: reading with a limit [k] right after a sequence of appends returns
    the [k] entries appended last, oldest first, as [add_entry] returned
    them. *)
Theorem read_returns_latest_appended isoformat (calls : list AppendCall)
    (k : nat) (s : State) :
  0 < k → k ≤ length calls →
  result (get_entries (Some (Z.of_nat k)) None)
    (exec (append_all isoformat calls) s)
  = drop (length calls - k) (result (append_all isoformat calls) s).
Proof.
  intros Hk Hle.
  destruct (append_all_entries isoformat calls s) as (He & Hid & Hc).
  assert (Hlen : length (result (append_all isoformat calls) s)
                 = length calls).
  { by rewrite <- (length_fmap call_of), Hc. }
  unfold get_entries, result at 1, bind, gets, ret. cbn [fst].
  cbn [truthy_str truthy_int].
  assert ((Z.of_nat k =? 0)%Z = false) as -> by (apply Z.eqb_neq; lia).
  cbn [negb]. change (default 0%Z (Some (Z.of_nat k))) with (Z.of_nat k).
  rewrite slice_from_last by lia. rewrite He, length_app, Hlen.
  rewrite Nat2Z.id.
  replace (length (entries (changelog s)) + length calls - k)
    with (length (entries (changelog s)) + (length calls - k)) by lia.
  by rewrite drop_app_add.
Qed.

Lemma read_returns_latest_appended_witness :
  0 < 1 ∧ 1 ≤ length Sample.calls
  ∧ call_of
      <$> result (get_entries (Some (Z.of_nat 1)) None)
            (exec (append_all Sample.iso Sample.calls) Sample.logged)
    = [mkAppendCall "api_call" "metrics" "system" "info"].
Proof.
  assert (H0 : 0 < 1) by lia.
  assert (H1 : 1 ≤ length Sample.calls) by (simpl; lia).
  split_and!; [exact H0 | exact H1 |].
  rewrite (read_returns_latest_appended Sample.iso Sample.calls 1
             Sample.logged H0 H1).
  reflexivity.
Defined.

(** X26: the statistics and the reads agree: the counter that the statistics
    hold for a level is the number of entries that a read filtered by
    that level returns. *)
Theorem stats_agree_with_reads fromisoformat has_tzinfo (lvl : string) (s : State) :
  lvl ≠ "" →
  default 0 (by_level (result (get_stats fromisoformat has_tzinfo) s) !! lvl)
  = length (result (get_entries None (Some lvl)) s).
Proof.
  intros Hl.
  rewrite (proj1 (get_stats_levels fromisoformat has_tzinfo s lvl)).
  rewrite default_reported.
  unfold get_entries, result, bind, gets, ret. cbn [fst truthy_int].
  destruct lvl as [|a w]; [done|]. cbn [truthy_str PyStr.truthy].
  unfold count_level. f_equal.
  apply list_filter_iff. intros e. split; congruence.
Qed.

Lemma stats_agree_with_reads_witness :
  "info" ≠ ""
  ∧ default 0 (by_level (result (get_stats Sample.parse Sample.tzinfo) Sample.logged)
               !! "info")
    = 1.
Proof.
  assert (H : "info" ≠ "") by discriminate.
  split; [exact H|].
  rewrite (stats_agree_with_reads Sample.parse Sample.tzinfo "info" Sample.logged H).
  reflexivity.
Defined.

(** ** The order of the entries of a diff *)

Lemma omap_length {A B} (f : A → option B) (l : list A) :
  length (omap f l) ≤ length l.
Proof.
  induction l as [|x l IH]; [done|]. csimpl. destruct (f x); simpl; lia.
Qed.

(** X19: one pass of the diff appends its entries in a fixed order: first, in
    the order of the current view, the entries for the names that
    appeared or changed, none of which is tagged container_stopped, and
    then, in the order of the stored view, one container_stopped entry
    for each of its names that the current view lacks. *)
Theorem check_status_changes_order isoformat
    (current : PyDict.dict ContainerInfo) (s : State) :
  ∃ first gone,
    entries (changelog (exec (_check_status_changes isoformat current) s))
    = entries (changelog s) ++ first ++ gone
    ∧ length first ≤ length current
    ∧ Forall (λ e, action e ≠ "container_stopped") first
    ∧ call_of <$> gone
      = (λ name, event_call (Stopped name))
          <$> filter (λ name, PyDict.get name current = None)
                (PyDict.keys (previous_status s)).
Proof.
  unfold exec. rewrite check_status_changes_run.
  destruct (record_all_entries isoformat
              (events_in_order (previous_status s) current) s)
    as (new & He & Hc).
  unfold events_in_order in Hc. rewrite fmap_app in Hc.
  apply fmap_app_inv in Hc as (first & gone & Hf & Hg & ->).
  exists first, gone. split_and!.
  - exact He.
  - rewrite <- (length_fmap call_of), <- Hf, length_fmap. apply omap_length.
  - apply Forall_forall. intros e Hin.
    assert (Hc' : call_of e
                  ∈ event_call <$> omap (appeared (previous_status s)) current)
      by (rewrite Hf; by apply list_elem_of_fmap_2).
    apply list_elem_of_fmap in Hc' as (ev & Hev & Hin').
    apply list_elem_of_omap in Hin' as (item & _ & Happ).
    intros Hact.
    assert (Hca : call_action (call_of e) = "container_stopped") by exact Hact.
    rewrite Hev in Hca. unfold appeared in Happ.
    repeat case_match; simplify_eq; discriminate Hca.
  - by rewrite <- Hg, disappeared_filter, <- list_fmap_compose.
Qed.

(** ** Trimming *)

Lemma append_cons (x : ascii) (a b : string) :
  String x a +:+ b = String x (a +:+ b).
Proof. reflexivity. Qed.

Lemma append_assoc (a b c : string) : (a +:+ b) +:+ c = a +:+ (b +:+ c).
Proof.
  induction a as [|x a IH]; [done|]. by rewrite !append_cons, IH.
Qed.

Lemma rev_app_append (a acc : string) :
  String.rev_app a acc = String.rev a +:+ acc.
Proof.
  unfold String.rev. revert acc. induction a as [|x a IH]; intros acc; [done|].
  cbn [String.rev_app].
  rewrite (IH (String x acc)), (IH (String x "")), append_assoc. done.
Qed.

Lemma rev_app_rev_app (a b : string) :
  String.rev (String.rev_app a b) = String.rev_app b a.
Proof.
  revert b. induction a as [|x a IH]; intros b; [done|].
  cbn [String.rev_app]. by rewrite IH.
Qed.

Lemma rev_involutive (s : string) : String.rev (String.rev s) = s.
Proof. unfold String.rev at 2. by rewrite rev_app_rev_app. Qed.

Lemma rev_cons_append (c : ascii) (s : string) :
  String.rev (String c s) = String.rev s +:+ String c "".
Proof. unfold String.rev at 1. cbn [String.rev_app]. apply rev_app_append. Qed.

Lemma rev_snoc (w : string) (c : ascii) :
  String.rev (w +:+ String c "") = String c (String.rev w).
Proof.
  rewrite <- (rev_involutive (String c (String.rev w))). f_equal.
  by rewrite rev_cons_append, rev_involutive.
Qed.

Lemma lstrip_clean (s : string) : starts_clean (PyStr.lstrip s).
Proof.
  induction s as [|c s IH]; [done|]. cbn [PyStr.lstrip].
  by destruct (PyStr.is_space c) eqn:E.
Qed.

(** Trimming on the left never removes a final character that is not
    white space. *)
Lemma lstrip_keeps_last (u : string) (c : ascii) :
  PyStr.is_space c = false →
  ∃ w, PyStr.lstrip (u +:+ String c "") = w +:+ String c "".
Proof.
  intros Hc. induction u as [|x u IH].
  - exists "". change ("" +:+ String c "") with (String c "").
    cbn [PyStr.lstrip]. by rewrite Hc.
  - rewrite append_cons. cbn [PyStr.lstrip].
    destruct (PyStr.is_space x); [exact IH|].
    exists (String x u). by rewrite append_cons.
Qed.

Lemma rstrip_clean_start (t : string) :
  starts_clean t → starts_clean (PyStr.rstrip t).
Proof.
  destruct t as [|c t]; [done|]. cbn [starts_clean]. intros Hc.
  unfold PyStr.rstrip. rewrite rev_cons_append.
  destruct (lstrip_keeps_last (String.rev t) c Hc) as [w ->].
  by rewrite rev_snoc.
Qed.

(** What [strip] returns neither starts nor ends with white space. *)
Lemma strip_trimmed (s : string) : trimmed (PyStr.strip s).
Proof.
  unfold trimmed, PyStr.strip. split.
  - apply rstrip_clean_start, lstrip_clean.
  - unfold PyStr.rstrip. rewrite rev_involutive. apply lstrip_clean.
Qed.

(** X14: the name, the status text, the ports, the image and the size of
    every record of a view are trimmed: none of them starts or ends with
    white space, whatever the runtime printed around the columns. *)
Theorem view_fields_trimmed isoformat (probe : RunOutcome) (s : State) :
  Forall (λ item, trimmed item.1
                  ∧ trimmed (status_text item.2)
                  ∧ trimmed (ports item.2)
                  ∧ trimmed (image item.2)
                  ∧ trimmed (size item.2))
    (result (get_all_container_status isoformat probe) s).
Proof.
  destruct probe as [rc out err|exc]; [|by constructor].
  unfold result. cbn [get_all_container_status].
  destruct (rc =? 0)%Z; [|by constructor].
  apply parse_lines_Forall; [|by constructor].
  intros line cs s0 Hw Hb.
  unfold result. rewrite parse_line_row by done. cbn [fst].
  eexists _, _. split; [done|].
  cbn [fst snd status_text ports image size].
  split_and!; apply strip_trimmed.
Qed.
